(** * Retention and bookkeeping engine of the Raspberry Pi image API

    A shallow embedding of [backend/main.py]: the device registry
    ([device_status]), the metadata ledger ([image_metadata]) and the upload
    directory, with the request handlers written in a small state-and-exception
    monad, followed by the properties of the retention engine.

    A handler takes the fields of its request and the readings of
    [datetime.now()] it makes as arguments, and runs on the process state. *)

From Stdlib Require Import ZArith Ascii Permutation Lia.
From Stdlib Require String.
From stdpp Require Import gmap strings list sorting fin_maps pretty.

Local Open Scope Z_scope.

(** ** Data model *)

(** A naive [datetime] is a point on the local time line, counted in
    microseconds (the resolution of Python's [datetime]). *)
Definition datetime : Type := Z.

(** [timedelta(minutes=m)] *)
Definition timedelta_minutes (m : Z) : Z := m * 60 * 1000000.

(** The dictionaries stored in [device_status] by [heartbeat]. *)
Record DeviceInfo := mkDeviceInfo {
  status : string;
  last_seen : datetime
}.

(** [class ImageMetadata(BaseModel)] *)
Record ImageMetadata := mkImageMetadata {
  device_id : string;
  filename : string;
  upload_time : datetime;
  file_path : string
}.

(** Pydantic models compare field by field; [list.remove] relies on it. *)
#[global] Instance DeviceInfo_eq_dec : EqDecision DeviceInfo.
Proof. solve_decision. Defined.
#[global] Instance ImageMetadata_eq_dec : EqDecision ImageMetadata.
Proof. solve_decision. Defined.

(** The process state: the two module-level collections and the files on
    disk.  The file system is the Blob Store of the specification, a finite
    map from path strings to contents.  It is exact where the upload
    directory holds plain files only and the device identifiers are plain
    file-name components that the file system accepts ([plain_directory],
    [plain_id] below).  Elsewhere it is not: paths are compared as strings
    (no directories, links or path normalisation, so ["uploads/./x"] and
    ["uploads/x"] are two keys), and a name that the file system would
    refuse (a missing directory, an over-long name) is stored all the same. *)
Record State := mkState {
  st_device_status : gmap string DeviceInfo;
  st_image_metadata : list ImageMetadata;
  st_files : gmap string (list Byte.byte)
}.

Definition UPLOAD_DIR : string := "uploads".

(** ** Exceptions and the handler monad *)

Inductive exn :=
| HTTPException (status_code : Z) (detail : string)
| FileNotFoundError (path : string)
| ValueError
| KeyError (key : string).

Inductive outcome (A : Type) :=
| Returned (a : A)
| Raised (e : exn).
Arguments Returned {A} a.
Arguments Raised {A} e.

(** A handler runs on the state and either returns or raises; what it had
    already mutated when it raises stays mutated. *)
Definition M (A : Type) : Type := State → outcome A * State.

#[global] Instance M_ret : MRet M := λ A a s, (Returned a, s).
#[global] Instance M_bind : MBind M := λ A B f m s,
  match m s with
  | (Returned a, s') => f a s'
  | (Raised e, s') => (Raised e, s')
  end.

Definition raise {A} (e : exn) : M A := λ s, (Raised e, s).
Definition gets {A} (f : State → A) : M A := λ s, (Returned (f s), s).
Definition modify (f : State → State) : M unit := λ s, (Returned tt, f s).

(** [try: body except FileNotFoundError: handler] *)
Definition try_except_FileNotFoundError {A} (body handler : M A) : M A := λ s,
  match body s with
  | (Raised (FileNotFoundError _), s') => handler s'
  | r => r
  end.

(** [for x in l: body(x)] over a list that the body does not mutate. *)
Fixpoint for_each {A} (l : list A) (body : A → M unit) : M unit :=
  match l with
  | [] => mret tt
  | x :: l' => body x ;; for_each l' body
  end.

(** The same loop when the body updates a local variable [acc]. *)
Fixpoint fold_each {A B} (l : list A) (acc : B) (body : A → B → M B) : M B :=
  match l with
  | [] => mret acc
  | x :: l' => acc' ← body x acc; fold_each l' acc' body
  end.

Definition set_device_status (f : gmap string DeviceInfo → gmap string DeviceInfo)
    (s : State) : State :=
  mkState (f (st_device_status s)) (st_image_metadata s) (st_files s).
Definition set_image_metadata (f : list ImageMetadata → list ImageMetadata)
    (s : State) : State :=
  mkState (st_device_status s) (f (st_image_metadata s)) (st_files s).
Definition set_files (f : gmap string (list Byte.byte) → gmap string (list Byte.byte))
    (s : State) : State :=
  mkState (st_device_status s) (st_image_metadata s) (f (st_files s)).

(** ** Python and operating-system primitives *)

(** [str.startswith] *)
Definition startswith (s p : string) : bool := String.prefix p s.

Fixpoint strip_prefix (p s : string) : option string :=
  match p, s with
  | EmptyString, _ => Some s
  | String a p', String b s' =>
      if decide (a = b) then strip_prefix p' s' else None
  | String _ _, EmptyString => None
  end.

Fixpoint contains_char (c : ascii) (s : string) : bool :=
  match s with
  | EmptyString => false
  | String a s' => if decide (a = c) then true else contains_char c s'
  end.

Fixpoint endswith_char (s : string) (c : ascii) : bool :=
  match s with
  | EmptyString => false
  | String a EmptyString => bool_decide (a = c)
  | String _ s' => endswith_char s' c
  end.

(** [os.path.join(a, b)] of [posixpath]: an absolute [b] replaces [a]. *)
Definition os_path_join (a b : string) : string :=
  if startswith b "/" then b
  else if bool_decide (a = "") || endswith_char a "/" then a +:+ b
  else a +:+ "/" +:+ b.

(** [with open(path, "wb") as buffer: shutil.copyfileobj(image.file, buffer)]:
    creates the file or replaces its content.  The errors of [open] (a
    directory of the path that does not exist, a name that is too long, a
    directory under that name) are not modelled: the statements about
    uploads assume [plain_id] and [plain_directory], under which [open] has
    none of them. *)
Definition write_file (path : string) (content : list Byte.byte) : M unit :=
  modify (set_files (insert path content)).

(** [os.remove(path)]: [FileNotFoundError] when there is no such file.  In
    a directory of plain files ([plain_directory]) that is its only error;
    [IsADirectoryError] on a sub-directory is not modelled. *)
Definition os_remove (path : string) : M unit := λ s,
  match st_files s !! path with
  | Some _ => (Returned tt, set_files (delete path) s)
  | None => (Raised (FileNotFoundError path), s)
  end.

(** [os.listdir(dir)]: the names of the files directly in [dir]; a directory
    entry never contains a separator.  Sub-directories of [dir] are not
    modelled and so not listed: the listing is that of [os.listdir] when
    [dir] holds plain files only ([plain_directory]). *)
Definition dir_entry (dir path : string) : option string :=
  match strip_prefix (dir +:+ "/") path with
  | Some name => if contains_char "/" name then None else Some name
  | None => None
  end.

Definition os_listdir (dir : string) : M (list string) :=
  gets (λ s, omap (dir_entry dir) (elements (dom (st_files s)))).

(** [l.remove(x)]: drops the first element equal to [x]; [ValueError] when
    there is none. *)
Fixpoint list_remove {A} `{EqDecision A} (x : A) (l : list A) : option (list A) :=
  match l with
  | [] => None
  | y :: l' => if decide (y = x) then Some l' else (y ::.) <$> list_remove x l'
  end.

(** [l[:n]] for any integer [n] (a negative [n] counts from the end). *)
Definition slice_to {A} (n : Z) (l : list A) : list A :=
  if n <? 0 then take (Z.to_nat (Z.of_nat (length l) + n)) l
  else take (Z.to_nat n) l.

(** [l.sort(key=key, reverse=reverse)]: a stable sort; with [reverse] the
    order is descending and equal keys still keep their original order. *)
Section Sort.
Context {A : Type} (key : A → Z) (reverse : bool).

Definition goes_before (x y : A) : bool :=
  if reverse then key y <=? key x else key x <=? key y.

Fixpoint sort_insert (x : A) (l : list A) : list A :=
  match l with
  | [] => [x]
  | y :: l' => if goes_before x y then x :: l else y :: sort_insert x l'
  end.

Definition list_sort (l : list A) : list A := foldr sort_insert [] l.

(** The order that [list_sort] establishes. *)
Definition in_order (x y : A) : Prop :=
  if reverse then key y ≤ key x else key x ≤ key y.
End Sort.

(** [max(l, key=key)] on a non-empty list [x :: l]: the first of the
    elements with the greatest key. *)
Fixpoint max_by {A} (key : A → Z) (x : A) (l : list A) : A :=
  match l with
  | [] => x
  | y :: l' => max_by key (if key x <? key y then y else x) l'
  end.

(** ** Request handlers *)

(** [[img for img in image_metadata if img.device_id == device_id]] *)
Definition images_of (d : string) (l : list ImageMetadata) : list ImageMetadata :=
  filter (λ img, device_id img = d) l.

(** [GET /] *)
Definition root : M string := mret "Raspberry Pi Image API is running".

Record HealthResponse := mkHealthResponse {
  health_status : string;
  health_timestamp : datetime
}.

(** [GET /api/health]; [now] is the reading of [datetime.now()]. *)
Definition health_check (now : datetime) : M HealthResponse :=
  mret (mkHealthResponse "healthy" now).

Record HeartbeatResponse := mkHeartbeatResponse {
  hb_message : string;
  hb_device_id : string
}.

(** [POST /api/heartbeat]; [now] is the reading of [datetime.now()]. *)
Definition heartbeat (req_device_id req_status : string) (now : datetime)
    : M HeartbeatResponse :=
  modify (set_device_status (insert req_device_id (mkDeviceInfo req_status now))) ;;
  mret (mkHeartbeatResponse "Heartbeat received" req_device_id).

Record UploadResponse := mkUploadResponse {
  up_message : string;
  up_filename : string
}.

(** [f"{device_id}-{timestamp}.png"] *)
Definition image_filename (d timestamp : string) : string :=
  d +:+ "-" +:+ timestamp +:+ ".png".

(** The eviction of one record in the cap-enforcement loop. *)
Definition evict (old_img : ImageMetadata) : M unit :=
  try_except_FileNotFoundError
    (os_remove (file_path old_img) ;;
     md ← gets st_image_metadata;
     match list_remove old_img md with
     | Some md' => modify (set_image_metadata (λ _, md'))
     | None => raise ValueError
     end)
    (mret tt).

(** [POST /api/upload-image].  The clock is read twice: [timestamp] is
    [datetime.now().strftime("%Y%m%d_%H%M%S")] of line 94 and [now] the
    [datetime.now()] stored as [upload_time]. *)
Definition upload_image (image : list Byte.byte) (dev : option string)
    (timestamp : string) (now : datetime) : M UploadResponse :=
  match dev with
  | None | Some "" => raise (HTTPException 400 "device_id is required")
  | Some d =>
      let filename := image_filename d timestamp in
      let file_path := os_path_join UPLOAD_DIR filename in
      write_file file_path image ;;
      let metadata := mkImageMetadata d filename now file_path in
      modify (set_image_metadata (λ md, md ++ [metadata])) ;;
      md ← gets st_image_metadata;
      let device_images := images_of d md in
      (if decide (20 < length device_images)%nat then
         let device_images := list_sort upload_time false device_images in
         for_each (slice_to (-20) device_images) evict
       else mret tt) ;;
      mret (mkUploadResponse "Image uploaded successfully" filename)
  end.

(** [del device_status[k]] *)
Definition dict_del (k : string) : M unit := λ s,
  match st_device_status s !! k with
  | Some _ => (Returned tt, set_device_status (delete k) s)
  | None => (Raised (KeyError k), s)
  end.

(** The records that the expiry sweep removes. *)
Definition expired (cutoff_time : datetime) (info : DeviceInfo) : Prop :=
  status info = "offline" ∧ last_seen info < cutoff_time.

#[global] Instance expired_dec c info : Decision (expired c info).
Proof. unfold expired. apply _. Defined.

(** [GET /api/devices]; [now] is the reading of [datetime.now()]. *)
Definition get_devices (now : datetime) : M (gmap string DeviceInfo) :=
  let cutoff_time := now - timedelta_minutes 5 in
  items ← gets (λ s, map_to_list (st_device_status s));
  let devices_to_remove :=
    foldl (λ acc item, if decide (expired cutoff_time item.2)
                       then acc ++ [item.1] else acc) [] items in
  for_each devices_to_remove dict_del ;;
  gets st_device_status.

Record ImageInfo := mkImageInfo {
  img_filename : string;
  img_upload_time : datetime;
  img_url : string
}.

Definition image_info (img : ImageMetadata) : ImageInfo :=
  mkImageInfo (filename img) (upload_time img) ("/static/" +:+ filename img).

(** [GET /api/images/{device_id}?limit=..] *)
Definition get_device_images (d : string) (limit : Z) : M (list ImageInfo) :=
  md ← gets st_image_metadata;
  let device_images := images_of d md in
  let device_images := list_sort upload_time true device_images in
  let images_with_urls :=
    foldl (λ acc img, acc ++ [image_info img]) [] (slice_to limit device_images) in
  mret images_with_urls.

(** [GET /api/images/{device_id}/latest] *)
Definition get_latest_image (d : string) : M ImageInfo :=
  md ← gets st_image_metadata;
  match images_of d md with
  | [] => raise (HTTPException 404 "No images found for device")
  | img :: rest =>
      let latest_image := max_by upload_time img rest in
      mret (image_info latest_image)
  end.

Record CleanupResponse := mkCleanupResponse {
  cl_message : string;
  removed_count : Z
}.

(** The body of the reconciliation loop: one orphaned file name, with the
    local counter [removed_count]. *)
Definition remove_orphan (d filename : string) (removed_count : Z) : M Z :=
  if startswith filename (d +:+ "-") then
    try_except_FileNotFoundError
      (os_remove (os_path_join UPLOAD_DIR filename) ;;
       mret (removed_count + 1))
      (mret removed_count)
  else mret removed_count.

(** [POST /api/cleanup-orphaned] *)
Definition cleanup_orphaned (d : string) : M CleanupResponse :=
  listing ← os_listdir UPLOAD_DIR;
  let server_files : gset string := list_to_set listing in
  md ← gets st_image_metadata;
  let metadata_files : gset string := list_to_set (filename <$> images_of d md) in
  let orphaned_files := server_files ∖ metadata_files in
  removed_count ← fold_each (elements orphaned_files) 0 (remove_orphan d);
  mret (mkCleanupResponse
          ("Cleaned up " +:+ pretty removed_count +:+ " orphaned files")
          removed_count).

Record SystemStatus := mkSystemStatus {
  online_devices : Z;
  total_devices : Z;
  total_images : Z;
  status_timestamp : datetime
}.

(** [sum(1 for status in device_status.values() if status["status"] == "online")] *)
Definition count_online (reg : gmap string DeviceInfo) : Z :=
  foldr (λ info n, if decide (status info = "online") then 1 + n else n) 0
        (map_to_list reg).*2.

(** [GET /api/status] *)
Definition get_system_status (now : datetime) : M SystemStatus :=
  reg ← gets st_device_status;
  md ← gets st_image_metadata;
  mret (mkSystemStatus (count_online reg) (Z.of_nat (size reg))
                       (Z.of_nat (length md)) now).

(** ** Vocabulary of the statements *)

(** The map without the keys [ks]. *)
Definition delete_all {V} (ks : list string) (m : gmap string V) : gmap string V :=
  foldl (λ m k, delete k m) m ks.

(** What [get_devices] leaves in the registry, record by record. *)
Definition swept (c : datetime) (o : option DeviceInfo) : option DeviceInfo :=
  match o with
  | Some info => if decide (expired c info) then None else Some info
  | None => None
  end.

(** The registry entries that [get_system_status] counts. *)
Definition is_online (item : string * DeviceInfo) : Prop :=
  status item.2 = "online".

#[global] Instance is_online_dec item : Decision (is_online item).
Proof. unfold is_online. apply _. Defined.

(** A file name, as opposed to a path. *)
Definition no_separator (name : string) : Prop := contains_char "/" name = false.

(** The path under which a file name of the upload directory is stored. *)
Definition upload_path (name : string) : string := "uploads/" +:+ name.

(** The file names that a reconciliation for [d] tries to delete. *)
Definition in_scope (d name : string) : Prop := startswith name (d +:+ "-") = true.

#[global] Instance in_scope_dec d name : Decision (in_scope d name).
Proof. unfold in_scope. apply _. Defined.

(** Their paths, for the file names [names] found orphaned. *)
Definition orphan_paths (d : string) (names : list string) : list string :=
  upload_path <$> filter (in_scope d) names.

(** The path of the file that an upload for [d] writes. *)
Definition blob_path (d timestamp : string) : string :=
  os_path_join UPLOAD_DIR (image_filename d timestamp).

(** The record that an upload for [d] appends. *)
Definition new_record (d timestamp : string) (now : datetime) : ImageMetadata :=
  mkImageMetadata d (image_filename d timestamp) now (blob_path d timestamp).

(** The state once the file is written and the record appended. *)
Definition stored (image : list Byte.byte) (d timestamp : string) (now : datetime)
    (s : State) : State :=
  mkState (st_device_status s)
          (st_image_metadata s ++ [new_record d timestamp now])
          (<[blob_path d timestamp := image]> (st_files s)).

(** The records that cap enforcement selects for eviction. *)
Definition to_evict (d : string) (md : list ImageMetadata) : list ImageMetadata :=
  if decide (20 < length (images_of d md))%nat
  then slice_to (-20) (list_sort upload_time false (images_of d md))
  else [].

Definition is_digit (c : ascii) : bool :=
  match Ascii.is_nat c with Some _ => true | None => false end.

Fixpoint all_digits (s : string) : bool :=
  match s with
  | EmptyString => true
  | String c s' => is_digit c && all_digits s'
  end.

(** The strings that [strftime("%Y%m%d_%H%M%S")] produces for a four-digit
    year: eight digits, an underscore, six digits. *)
Definition is_timestamp (ts : string) : bool :=
  bool_decide (String.length ts = 15%nat)
  && all_digits (String.substring 0 8 ts)
  && bool_decide (String.get 8 ts = Some "_"%char)
  && all_digits (String.substring 9 6 ts).

(** A record as [upload_image] makes it: its file name and path are derived
    from its device identifier and a timestamp.  Every record of a ledger
    filled by uploads is of this form. *)
Definition generated (img : ImageMetadata) : Prop :=
  ∃ ts, is_timestamp ts = true
        ∧ img = new_record (device_id img) ts (upload_time img).

(** The ledgers that uploads produce. *)
Definition ledger_wf (md : list ImageMetadata) : Prop := Forall generated md.

(** A file name that a directory takes as one plain entry: not empty, at
    most 255 bytes, without separator or NUL, and neither ["."] nor [".."]. *)
Definition plain_name (name : string) : bool :=
  negb (contains_char "/" name)
  && negb (contains_char "000" name)
  && bool_decide (1 ≤ String.length name ≤ 255)%nat
  && negb (bool_decide (name = "."))
  && negb (bool_decide (name = "..")).

(** A device identifier that is a plain file-name component, short enough
    for the file names [device_id-YYYYMMDD_HHMMSS.png] to be accepted. *)
Definition plain_id (d : string) : bool :=
  negb (contains_char "/" d)
  && negb (contains_char "000" d)
  && bool_decide (1 ≤ String.length d ≤ 235)%nat.

(** The path of a plain file directly in the upload directory. *)
Definition plain_path (path : string) : bool :=
  match dir_entry UPLOAD_DIR path with
  | Some name => plain_name name
  | None => false
  end.

(** The upload directory holds plain files only (no sub-directory, no
    link), and the state records no file elsewhere. *)
Definition plain_directory (s : State) : Prop :=
  map_Forall (λ path _, plain_path path = true) (st_files s).

(** A record that an upload of a plain device identifier made. *)
Definition plain_record (img : ImageMetadata) : Prop :=
  plain_id (device_id img) = true ∧ generated img.

(** The states on which the model of the file system is exact: a directory
    of plain files and a ledger filled by uploads of plain identifiers.
    Uploads of plain identifiers and reconciliations keep a state so
    ([upload_image_plain_state], [cleanup_orphaned_plain_state]). *)
Definition plain_state (s : State) : Prop :=
  plain_directory s ∧ Forall plain_record (st_image_metadata s).

(** One request of a client that posts images for a device: the image and
    the two clock readings taken while the request is handled. *)
Record UploadRequest := mkUploadRequest {
  rq_image : list Byte.byte;
  rq_timestamp : string;
  rq_now : datetime
}.

(** The requests handled one after the other, nothing else in between. *)
Definition uploads (d : string) (reqs : list UploadRequest) : M unit :=
  for_each reqs (λ rq,
    upload_image (rq_image rq) (Some d) (rq_timestamp rq) (rq_now rq) ;; mret tt).

(** The record that the request leaves in the ledger. *)
Definition record_of (d : string) (rq : UploadRequest) : ImageMetadata :=
  new_record d (rq_timestamp rq) (rq_now rq).

(** Every record of [d] has its file. *)
Definition blobs_present (d : string) (s : State) : Prop :=
  ∀ img, img ∈ images_of d (st_image_metadata s) →
         is_Some (st_files s !! file_path img).

(** The records of [d] have pairwise distinct files, all on disk, written
    under the timestamps [used]. *)
Definition own_files (d : string) (used : list string) (s : State) : Prop :=
  blobs_present d s
  ∧ NoDup (file_path <$> images_of d (st_image_metadata s))
  ∧ ∀ img, img ∈ images_of d (st_image_metadata s) →
           ∃ ts, ts ∈ used ∧ file_path img = blob_path d ts.

(** One request served: the state before and after.  Whatever a handler
    returns or raises, the state it leaves is the state of the process.  The
    file-name timestamp of an upload is a formatted clock reading. *)
Inductive step : State → State → Prop :=
| step_root s : step s (root s).2
| step_health_check now s : step s (health_check now s).2
| step_heartbeat d st now s : step s (heartbeat d st now s).2
| step_get_devices now s : step s (get_devices now s).2
| step_upload_image image dev timestamp now s :
    is_timestamp timestamp = true →
    step s (upload_image image dev timestamp now s).2
| step_get_device_images d limit s : step s (get_device_images d limit s).2
| step_get_latest_image d s : step s (get_latest_image d s).2
| step_cleanup_orphaned d s : step s (cleanup_orphaned d s).2
| step_get_system_status now s : step s (get_system_status now s).2.

(** ** Concrete states and runs *)

(** The state of a process that has just started, on an empty directory. *)
Definition initial : State := mkState ∅ [] ∅.

(** States used to exercise the statements. *)
Definition two_devices : State :=
  mkState (<["cam-a" := mkDeviceInfo "offline" 0]>
             (<["cam-b" := mkDeviceInfo "online" 0]> ∅)) [] ∅.

Definition three_images : State :=
  mkState ∅
    [mkImageMetadata "cam-a" "cam-a-20240101_120002.png" 7
                     "uploads/cam-a-20240101_120002.png";
     mkImageMetadata "cam-a" "cam-a-20240101_120003.png" 9
                     "uploads/cam-a-20240101_120003.png";
     mkImageMetadata "cam-b" "cam-b-20240101_120004.png" 11
                     "uploads/cam-b-20240101_120004.png";
     mkImageMetadata "cam-a" "cam-a-20240101_120001.png" 5
                     "uploads/cam-a-20240101_120001.png"]
    ∅.

Definition one_other_image : State :=
  mkState ∅
    [new_record "cam-b" "20240101_120004" 11]
    (<["uploads/cam-b-20240101_120004.png" := []]> ∅).

(** A directory with a file that has a record and one that has none. *)
Definition one_orphan : State :=
  mkState ∅
    [new_record "cam-b" "20240101_120004" 11]
    (<["uploads/cam-b-20240101_120004.png" := []]>
       (<["uploads/cam-b-20240101_120009.png" := []]> ∅)).

(** A clock started at noon of 1 January 2024: the formatted reading [t]
    microseconds later (within the first minute). *)
Definition clock_stamp (t : datetime) : string :=
  let seconds := t / 1000000 in
  "20240101_1200" +:+ (if seconds <? 10 then "0" +:+ pretty seconds
                       else pretty seconds).

(** An upload handled at [t], with an empty image. *)
Definition request_at (t : datetime) : UploadRequest :=
  mkUploadRequest [] (clock_stamp t) t.

(** One upload per second, from second 1 to second 20. *)
Definition every_second : list UploadRequest :=
  (λ k, request_at (Z.of_nat k * 1000000)) <$> seq 1 20.

(** 22 uploads of one device, the first two within the same second. *)
Definition burst : list UploadRequest :=
  request_at 100000 :: request_at 600000 :: every_second.

(** The state after the first 21 uploads of [burst], and the record of the
    second upload, whose file went with the eviction of the first. *)
Definition before_last : State := (uploads "pi" (take 21 burst) initial).2.
Definition stale : ImageMetadata := record_of "pi" (request_at 600000).

(** Two devices, one upload each. *)
Definition two_cameras : State :=
  ((uploads "pi" [request_at 0] ;; uploads "pi-2" [request_at 1000000]) initial).2.

(** * Properties *)

(** ** Plain identifiers and directories *)

Lemma plain_id_nonempty d : plain_id d = true → d ≠ "".
Proof.
  unfold plain_id. rewrite !andb_true_iff.
  intros [_ Hlen%bool_decide_eq_true] ->. cbn in Hlen. lia.
Qed.

Lemma plain_directory_initial : plain_directory (mkState ∅ [] ∅).
Proof. apply map_Forall_empty. Qed.

Lemma plain_state_initial : plain_state initial.
Proof. split; [apply plain_directory_initial|constructor]. Qed.

Lemma plain_state_one_other_image : plain_state one_other_image.
Proof.
  split.
  - apply map_Forall_insert_2; [reflexivity|apply map_Forall_empty].
  - apply Forall_singleton. split; [reflexivity|].
    by exists "20240101_120004".
Qed.

Lemma plain_directory_one_orphan : plain_directory one_orphan.
Proof.
  apply map_Forall_insert_2; [reflexivity|].
  apply map_Forall_insert_2; [reflexivity|apply map_Forall_empty].
Qed.

(** ** Running handlers *)

Lemma run_bind {A B} (m : M A) (f : A → M B) (s : State) :
  (m ≫= f) s = match m s with
               | (Returned a, s') => f a s'
               | (Raised e, s') => (Raised e, s')
               end.
Proof. reflexivity. Qed.

Lemma run_gets {A B} (g : State → A) (f : A → M B) (s : State) :
  (gets g ≫= f) s = f (g s) s.
Proof. reflexivity. Qed.

Lemma run_modify {B} (g : State → State) (f : unit → M B) (s : State) :
  (modify g ≫= f) s = f tt (g s).
Proof. reflexivity. Qed.

Lemma run_ret {A B} (a : A) (f : A → M B) (s : State) :
  (mret a ≫= f) s = f a s.
Proof. reflexivity. Qed.

Lemma run_mret {A} (a : A) (s : State) : (mret a : M A) s = (Returned a, s).
Proof. reflexivity. Qed.

(** Reduces the [mret]s that a run has reached. *)
Ltac run_returns := repeat (rewrite run_mret; cbv beta iota).

Lemma for_each_app {A} (l1 l2 : list A) (body : A → M unit) (s : State) :
  for_each (l1 ++ l2) body s =
  match for_each l1 body s with
  | (Returned _, s') => for_each l2 body s'
  | (Raised e, s') => (Raised e, s')
  end.
Proof.
  revert s. induction l1 as [|x l1 IH]; intros s; simpl; [done|].
  rewrite !run_bind. destruct (body x s) as [[[]|e] s1]; [|done].
  apply IH.
Qed.

(** ** The device registry: expiry sweep *)

Lemma devices_to_remove_filter (c : datetime) (items : list (string * DeviceInfo)) acc :
  foldl (λ acc item, if decide (expired c item.2) then acc ++ [item.1] else acc)
        acc items
  = acc ++ (filter (λ item, expired c item.2) items).*1.
Proof.
  revert acc. induction items as [|item items IH]; intros acc; simpl.
  - by rewrite app_nil_r.
  - rewrite IH. rewrite filter_cons. destruct (decide (expired c item.2)); [|done].
    by rewrite fmap_cons, <-app_assoc.
Qed.

Lemma lookup_delete_all {V} ks (m : gmap string V) k :
  delete_all ks m !! k = if decide (k ∈ ks) then None else m !! k.
Proof.
  unfold delete_all. revert m. induction ks as [|k' ks IH]; intros m; cbn [foldl].
  - case_decide as Hin; [|done]. by apply elem_of_nil in Hin.
  - rewrite IH. destruct (decide (k ∈ ks)) as [Hin|Hnin].
    + rewrite decide_True; [done|]. by right.
    + destruct (decide (k = k')) as [->|Hne].
      * rewrite lookup_delete_eq. rewrite decide_True; [done|]. by left.
      * rewrite lookup_delete_ne by done.
        rewrite decide_False; [done|]. by intros [?|?]%elem_of_cons.
Qed.

Lemma for_each_dict_del ks : ∀ s,
  NoDup ks →
  (∀ k, k ∈ ks → is_Some (st_device_status s !! k)) →
  for_each ks dict_del s = (Returned tt, set_device_status (delete_all ks) s).
Proof.
  induction ks as [|k ks IH]; intros s Hnd Hin; simpl.
  - by destruct s.
  - apply NoDup_cons in Hnd as [Hk Hnd].
    rewrite run_bind. unfold dict_del at 1.
    destruct (Hin k) as [v Hv]; [by left|]. rewrite Hv.
    rewrite IH; [by destruct s|done|].
    intros k' Hk'. simpl. rewrite lookup_delete_ne by (intros ->; done).
    apply Hin. by right.
Qed.

Lemma get_devices_run (now : datetime) (s : State) :
  ∃ reg', get_devices now s
          = (Returned reg', mkState reg' (st_image_metadata s) (st_files s))
        ∧ ∀ k, reg' !! k = swept (now - timedelta_minutes 5) (st_device_status s !! k).
Proof.
  set (c := now - timedelta_minutes 5).
  set (ks := (filter (λ item : string * DeviceInfo, expired c item.2)
                (map_to_list (st_device_status s))).*1).
  exists (delete_all ks (st_device_status s)). split.
  - unfold get_devices. rewrite run_gets. fold c.
    rewrite devices_to_remove_filter. simpl. fold ks.
    rewrite run_bind, for_each_dict_del; [done|..].
    + eapply NoDup_fmap_fst.
      * intros k v1 v2 [_ H1]%list_elem_of_filter [_ H2]%list_elem_of_filter.
        apply elem_of_map_to_list in H1, H2. congruence.
      * apply NoDup_filter, NoDup_map_to_list.
    + intros k [[k' v] [-> [_ Hv]%list_elem_of_filter]]%list_elem_of_fmap.
      apply elem_of_map_to_list in Hv. by exists v.
  - intros k. rewrite lookup_delete_all. unfold swept.
    destruct (decide (k ∈ ks)) as [Hin|Hnin].
    + apply list_elem_of_fmap in Hin as [[k' v] [-> [He Hv]%list_elem_of_filter]].
      apply elem_of_map_to_list in Hv. simpl in *. rewrite Hv.
      by rewrite decide_True.
    + destruct (st_device_status s !! k) as [info|] eqn:Hk; [|done].
      destruct (decide (expired c info)) as [He|]; [|done].
      exfalso. apply Hnin. apply list_elem_of_fmap. exists (k, info). split; [done|].
      apply list_elem_of_filter. split; [done|]. by apply elem_of_map_to_list.
Qed.

(** C5: the sweep of [get_devices] never fails, removes exactly the records
    that are "offline" with [last_seen] before [now - 5 minutes], and returns
    the registry that remains; so a record that is "offline" and was last seen
    at [now - 6 minutes] is absent from the result, and a record that is
    "online" and was last seen at [now - 6 minutes] is still present. *)
Theorem get_devices_expiry (now : datetime) (s : State) :
  ∃ reg',
    get_devices now s
    = (Returned reg', mkState reg' (st_image_metadata s) (st_files s))
    ∧ (∀ k, reg' !! k =
            match st_device_status s !! k with
            | Some info =>
                if decide (status info = "offline"
                           ∧ last_seen info < now - timedelta_minutes 5)
                then None else Some info
            | None => None
            end)
    ∧ (∀ k info,
         st_device_status s !! k = Some info →
         last_seen info = now - timedelta_minutes 6 →
         (status info = "offline" → reg' !! k = None)
         ∧ (status info = "online" → reg' !! k = Some info)).
Proof.
  destruct (get_devices_run now s) as (reg' & Hrun & Hlook).
  exists reg'. split; [done|]. split.
  - intros k. rewrite Hlook. unfold swept, expired.
    destruct (st_device_status s !! k); [|done]. by repeat case_decide.
  - intros k info Hk Hseen. rewrite Hlook, Hk. unfold swept, expired.
    split; intros Hst.
    + rewrite decide_True; [done|]. split; [done|].
      rewrite Hseen. unfold timedelta_minutes. lia.
    + rewrite decide_False; [done|]. rewrite Hst. by intros [? _].
Qed.

Lemma get_devices_expiry_witness :
  ∃ reg', get_devices (timedelta_minutes 6) two_devices
          = (Returned reg', mkState reg' [] ∅)
        ∧ reg' !! "cam-a" = None
        ∧ reg' !! "cam-b" = Some (mkDeviceInfo "online" 0).
Proof.
  destruct (get_devices_expiry (timedelta_minutes 6) two_devices)
    as (reg' & Hrun & _ & Hinst).
  exists reg'. split; [exact Hrun|]. split.
  - apply (Hinst "cam-a" (mkDeviceInfo "offline" 0)); reflexivity.
  - apply (Hinst "cam-b" (mkDeviceInfo "online" 0)); reflexivity.
Defined.

(** ** The device registry: counting online devices *)

Lemma count_online_list (l : list (string * DeviceInfo)) :
  foldr (λ info n, if decide (status info = "online") then 1 + n else n) 0 l.*2
  = Z.of_nat (length (filter is_online l)).
Proof.
  induction l as [|item l IH]; [done|].
  rewrite fmap_cons, filter_cons. cbn [foldr]. rewrite IH.
  repeat case_decide; unfold is_online in *; try done; cbn [length]; lia.
Qed.

Lemma map_to_list_filter_perm (P : string * DeviceInfo → Prop)
    `{!∀ x, Decision (P x)} (m : gmap string DeviceInfo) :
  map_to_list (filter P m) ≡ₚ filter P (map_to_list m).
Proof.
  apply NoDup_Permutation.
  - apply NoDup_map_to_list.
  - apply NoDup_filter, NoDup_map_to_list.
  - intros [k v]. rewrite elem_of_map_to_list, map_lookup_filter_Some.
    rewrite list_elem_of_filter, elem_of_map_to_list. tauto.
Qed.

Lemma count_online_size (reg : gmap string DeviceInfo) :
  count_online reg = Z.of_nat (size (filter is_online reg)).
Proof.
  unfold count_online. rewrite count_online_list.
  by rewrite <-length_map_to_list, map_to_list_filter_perm.
Qed.

(** C8: the [online_devices] figure of [get_system_status], computed on the
    registry as it is, equals the number of "online" records in the registry
    that an expiry sweep ([get_devices]) at the same instant returns. *)
Theorem count_online_retained (now : datetime) (s : State) :
  ∃ st reg' s',
    get_system_status now s = (Returned st, s)
    ∧ get_devices now s = (Returned reg', s')
    ∧ online_devices st = Z.of_nat (size (filter is_online reg')).
Proof.
  destruct (get_devices_run now s) as (reg' & Hrun & Hlook).
  eexists _, reg', _. split; [reflexivity|]. split; [exact Hrun|].
  cbn [online_devices]. rewrite count_online_size. do 2 f_equal.
  apply map_filter_strong_ext_1. intros k info. rewrite Hlook.
  unfold swept, is_online. cbn [snd].
  destruct (st_device_status s !! k) as [info'|]; [|tauto].
  destruct (decide (expired (now - timedelta_minutes 5) info')) as [He|];
    [|tauto].
  split; [|by intros [_ [=]]].
  intros [Hon [= ->]]. destruct He as [Hoff _]. congruence.
Qed.

(** ** Lists: stable sort, slices, maximum, removal *)

Section SortFacts.
Context {A : Type} (key : A → Z) (reverse : bool).

Local Abbreviation ordered := (in_order key reverse).

Lemma goes_before_true x y : goes_before key reverse x y = true ↔ ordered x y.
Proof. unfold goes_before, in_order. destruct reverse; apply Z.leb_le. Qed.

Lemma goes_before_false x y :
  goes_before key reverse x y = false → ordered y x.
Proof.
  unfold goes_before, in_order. destruct reverse; intros ?%Z.leb_gt; lia.
Qed.

Lemma in_order_trans x y z : ordered x y → ordered y z → ordered x z.
Proof. unfold in_order. destruct reverse; lia. Qed.

Lemma sort_insert_perm x l : sort_insert key reverse x l ≡ₚ x :: l.
Proof.
  induction l as [|y l IH]; cbn [sort_insert]; [done|].
  destruct (goes_before key reverse x y); [done|].
  rewrite IH. apply perm_swap.
Qed.

Lemma list_sort_perm l : list_sort key reverse l ≡ₚ l.
Proof.
  induction l as [|x l IH]; [done|].
  unfold list_sort in *. cbn [foldr]. by rewrite sort_insert_perm, IH.
Qed.

Lemma sort_insert_sorted x l :
  StronglySorted ordered l →
  StronglySorted ordered (sort_insert key reverse x l).
Proof.
  induction 1 as [|y l Hl IH Hy]; cbn [sort_insert].
  - repeat constructor.
  - destruct (goes_before key reverse x y) eqn:Hxy.
    + apply goes_before_true in Hxy. constructor; [by constructor|].
      constructor; [done|].
      eapply Forall_impl; [exact Hy|]. intros z ?. by eapply in_order_trans.
    + apply goes_before_false in Hxy. constructor; [done|].
      rewrite sort_insert_perm. by constructor.
Qed.

Lemma list_sort_sorted l : StronglySorted ordered (list_sort key reverse l).
Proof.
  induction l as [|x l IH]; [constructor|].
  unfold list_sort in *. cbn [foldr]. by apply sort_insert_sorted.
Qed.

(** A list that is already in order is left as it is. *)
Lemma list_sort_id l : Sorted ordered l → list_sort key reverse l = l.
Proof.
  induction 1 as [|x l Hl IH Hx]; [done|].
  unfold list_sort in *. cbn [foldr]. rewrite IH.
  destruct Hx as [|y l Hxy]; [done|]. cbn [sort_insert].
  apply goes_before_true in Hxy. by rewrite Hxy.
Qed.
End SortFacts.

Lemma max_by_elem_of {A} (key : A → Z) x l : max_by key x l ∈ x :: l.
Proof.
  revert x. induction l as [|y l IH]; intros x; cbn [max_by]; [by left|].
  specialize (IH (if key x <? key y then y else x)).
  apply elem_of_cons in IH as [->|IH].
  - destruct (key x <? key y); [right; left|left].
  - right; by right.
Qed.

Lemma max_by_ge {A} (key : A → Z) x l y :
  y ∈ x :: l → key y ≤ key (max_by key x l).
Proof.
  revert x y. induction l as [|z l IH]; intros x y Hy; cbn [max_by].
  - apply list_elem_of_singleton in Hy as ->. lia.
  - assert (Hle : key x ≤ key (if key x <? key z then z else x)
                  ∧ key z ≤ key (if key x <? key z then z else x)).
    { destruct (Z.ltb_spec (key x) (key z)); lia. }
    destruct Hle as [Hx Hz].
    pose proof (IH (if key x <? key z then z else x)) as Hm.
    apply elem_of_cons in Hy as [->|Hy]; [|apply elem_of_cons in Hy as [->|Hy]].
    + etrans; [exact Hx|]. apply Hm. by left.
    + etrans; [exact Hz|]. apply Hm. by left.
    + apply Hm. by right.
Qed.

Lemma images_of_elem_of d md img :
  img ∈ images_of d md ↔ device_id img = d ∧ img ∈ md.
Proof. unfold images_of. by rewrite list_elem_of_filter. Qed.

(** ** The ledger: latest image *)

(** C7: [get_latest_image] changes no state; it raises exactly when the
    device has no record, and then it is the 404 "not found" error; otherwise
    it returns a record of the device whose [upload_time] is the maximum over
    the device's records.  When one record is strictly later than every other
    record of the device, it is the one returned, wherever it stands in the
    ledger. *)
Theorem get_latest_image_max (d : string) (s : State) :
  let md := st_image_metadata s in
  (get_latest_image d s).2 = s
  ∧ (∀ e, (get_latest_image d s).1 = Raised e ↔
          images_of d md = []
          ∧ e = HTTPException 404 "No images found for device")
  ∧ (images_of d md ≠ [] →
     ∃ img, (get_latest_image d s).1 = Returned (image_info img)
            ∧ img ∈ md ∧ device_id img = d
            ∧ ∀ img', img' ∈ md → device_id img' = d →
                      upload_time img' ≤ upload_time img)
  ∧ (∀ img, img ∈ md → device_id img = d →
       (∀ img', img' ∈ md → device_id img' = d → img' ≠ img →
                upload_time img' < upload_time img) →
       (get_latest_image d s).1 = Returned (image_info img)).
Proof.
  intros md. unfold get_latest_image. rewrite run_gets. fold md.
  destruct (images_of d md) as [|x rest] eqn:Himgs.
  - split; [done|]. split; [|split].
    + intros e. cbn. split; [by intros [= <-]|by intros [_ ->]].
    + done.
    + intros img Hin Hd _. exfalso.
      assert (Hx : img ∈ images_of d md) by by apply images_of_elem_of.
      rewrite Himgs in Hx. by apply elem_of_nil in Hx.
  - assert (Hmax_in : max_by upload_time x rest ∈ images_of d md).
    { rewrite Himgs. apply max_by_elem_of. }
    assert (Hmax_ge : ∀ img', img' ∈ md → device_id img' = d →
              upload_time img' ≤ upload_time (max_by upload_time x rest)).
    { intros img' Hin Hd. apply max_by_ge. rewrite <-Himgs.
      by apply images_of_elem_of. }
    apply images_of_elem_of in Hmax_in as [Hmax_d Hmax_in].
    split; [done|]. split; [|split].
    + intros e. cbn. split; [done|by intros [? _]].
    + intros _. exists (max_by upload_time x rest). by cbn.
    + intros img Hin Hd Hlt. cbn. do 2 f_equal.
      destruct (decide (max_by upload_time x rest = img)) as [|Hne]; [done|].
      specialize (Hlt _ Hmax_in Hmax_d Hne).
      specialize (Hmax_ge _ Hin Hd). lia.
Qed.

Lemma get_latest_image_max_witness :
  ∃ img, (get_latest_image "cam-a" three_images).1 = Returned (image_info img)
         ∧ upload_time img = 9.
Proof.
  destruct (get_latest_image_max "cam-a" three_images) as (_ & _ & Hsome & _).
  destruct Hsome as (img & Hret & _ & _ & Hmax); [by vm_compute|].
  exists img. split; [exact Hret|].
  assert (Hrun : (get_latest_image "cam-a" three_images).1
                 = Returned (mkImageInfo "cam-a-20240101_120003.png" 9
                                         "/static/cam-a-20240101_120003.png"))
    by reflexivity.
  rewrite Hrun in Hret. unfold image_info in Hret.
  by injection Hret as _ <- _.
Defined.

(** ** The ledger: listing with a limit *)

Lemma foldl_append_fmap {A B} (f : A → B) (l : list A) (acc : list B) :
  foldl (λ acc x, acc ++ [f x]) acc l = acc ++ (f <$> l).
Proof.
  revert acc. induction l as [|x l IH]; intros acc; cbn [foldl].
  - by rewrite app_nil_r.
  - rewrite IH, fmap_cons. by rewrite <-app_assoc.
Qed.

Lemma slice_to_take_drop {A} (n : Z) (l : list A) :
  ∃ k, slice_to n l = take k l
       ∧ (n < 0 → length (drop k l) = Z.to_nat (Z.min (- n) (Z.of_nat (length l))))
       ∧ (n = 0 → k = 0%nat).
Proof.
  unfold slice_to. destruct (Z.ltb_spec n 0) as [Hneg|Hpos].
  - exists (Z.to_nat (Z.of_nat (length l) + n)). split; [done|]. split; [|lia].
    intros _. rewrite length_drop. lia.
  - exists (Z.to_nat n). split; [done|]. split; [lia|]. by intros ->.
Qed.




(** ** Strings and paths *)

Lemma string_app_nil_l (s : string) : "" +:+ s = s.
Proof. reflexivity. Qed.

Lemma string_app_cons (a : ascii) (s1 s2 : string) :
  String a s1 +:+ s2 = String a (s1 +:+ s2).
Proof. reflexivity. Qed.

Lemma strip_prefix_Some p s n : strip_prefix p s = Some n ↔ s = p +:+ n.
Proof.
  revert s. induction p as [|a p IH]; intros s; cbn [strip_prefix].
  - rewrite string_app_nil_l. split; congruence.
  - rewrite string_app_cons. destruct s as [|b s]; [done|].
    destruct (decide (a = b)) as [->|Hne].
    + rewrite IH. split; congruence.
    + split; [done|]. intros [= ? ?]. done.
Qed.

Lemma startswith_separator name : no_separator name → startswith name "/" = false.
Proof.
  unfold no_separator, startswith. destruct name as [|a name]; [done|].
  cbn [contains_char String.prefix].
  destruct (decide (a = "/"%char)) as [->|Hne]; [done|]. intros _.
  destruct (ascii_dec "/" a) as [<-|]; done.
Qed.

Lemma os_path_join_upload name :
  startswith name "/" = false → os_path_join UPLOAD_DIR name = upload_path name.
Proof. unfold os_path_join. by intros ->. Qed.

Lemma dir_entry_Some path name :
  dir_entry UPLOAD_DIR path = Some name ↔ path = upload_path name ∧ no_separator name.
Proof.
  unfold dir_entry, no_separator.
  destruct (strip_prefix (UPLOAD_DIR +:+ "/") path) as [n|] eqn:Hs.
  - apply strip_prefix_Some in Hs as ->.
    destruct (contains_char "/" n) eqn:Hc.
    + split; [done|]. intros [Hp Hn]. apply String.app_inj in Hp as <-. congruence.
    + split; [by intros [= <-]|]. by intros [->%String.app_inj _].
  - split; [done|]. intros [-> _].
    assert (strip_prefix (UPLOAD_DIR +:+ "/") (upload_path name) = Some name)
      by by apply strip_prefix_Some.
    congruence.
Qed.

Lemma elem_of_listdir (files : gmap string (list Byte.byte)) name :
  name ∈ omap (dir_entry UPLOAD_DIR) (elements (dom files))
  ↔ no_separator name ∧ is_Some (files !! upload_path name).
Proof.
  rewrite list_elem_of_omap. split.
  - intros (path & Hin & [-> Hn]%dir_entry_Some). split; [done|].
    by apply elem_of_dom, elem_of_elements.
  - intros [Hn Hsome]. exists (upload_path name). split.
    + by apply elem_of_elements, elem_of_dom.
    + by apply dir_entry_Some.
Qed.

(** ** Orphan reconciliation *)

Lemma remove_orphan_run d name acc s :
  no_separator name →
  remove_orphan d name acc s =
  if decide (in_scope d name) then
    match st_files s !! upload_path name with
    | Some _ => (Returned (acc + 1), set_files (delete (upload_path name)) s)
    | None => (Returned acc, s)
    end
  else (Returned acc, s).
Proof.
  intros Hname. unfold remove_orphan.
  destruct (decide (in_scope d name)) as [Hscope|Hscope].
  - rewrite Hscope. rewrite os_path_join_upload by by apply startswith_separator.
    unfold try_except_FileNotFoundError. rewrite run_bind. unfold os_remove.
    by destruct (st_files s !! upload_path name).
  - apply not_true_is_false in Hscope. by rewrite Hscope.
Qed.

Lemma fold_remove_orphan d names : ∀ acc s,
  Forall no_separator names →
  ∃ acc',
    fold_each names acc (remove_orphan d) s
    = (Returned acc', set_files (delete_all (orphan_paths d names)) s)
    ∧ (filter (in_scope d) names = [] → acc' = acc).
Proof.
  induction names as [|name names IH]; intros acc s Hsep.
  - exists acc. split; [by destruct s|done].
  - apply Forall_cons in Hsep as [Hname Hsep].
    cbn [fold_each]. rewrite run_bind, remove_orphan_run by done.
    unfold orphan_paths.
    destruct (decide (in_scope d name)) as [Hscope|Hscope].
    + rewrite filter_cons_True by done.
      destruct (st_files s !! upload_path name) as [content|] eqn:Hfile.
      * destruct (IH (acc + 1) (set_files (delete (upload_path name)) s) Hsep)
          as (acc' & -> & _).
        exists acc'. split; [by destruct s|done].
      * destruct (IH acc s Hsep) as (acc' & -> & _).
        exists acc'. split; [|done].
        unfold set_files, orphan_paths. do 2 f_equal.
        rewrite fmap_cons. unfold delete_all. cbn [foldl].
        by rewrite delete_id.
    + rewrite filter_cons_False by done. apply IH, Hsep.
Qed.

Lemma cleanup_orphaned_run d s :
  let server_files : gset string :=
    list_to_set (omap (dir_entry UPLOAD_DIR) (elements (dom (st_files s)))) in
  let metadata_files : gset string :=
    list_to_set (filename <$> images_of d (st_image_metadata s)) in
  let names := elements (server_files ∖ metadata_files) in
  ∃ r, cleanup_orphaned d s
       = (Returned r, set_files (delete_all (orphan_paths d names)) s)
     ∧ (filter (in_scope d) names = [] → removed_count r = 0).
Proof.
  intros server_files metadata_files names.
  destruct (fold_remove_orphan d names 0 s) as (acc' & Hrun & Hzero).
  { apply Forall_forall. intros name Hin.
    apply elem_of_elements, elem_of_difference in Hin as [Hin _].
    apply elem_of_list_to_set, elem_of_listdir in Hin. tauto. }
  eexists. unfold cleanup_orphaned, os_listdir. rewrite !run_gets.
  fold server_files metadata_files names. rewrite run_bind, Hrun.
  split; [reflexivity|]. exact Hzero.
Qed.

(** What a reconciliation for [d] can touch: nothing but files of the upload
    directory whose name starts with [d-] and is not the file name of a
    ledger record of [d]. *)
Lemma cleanup_orphaned_scope d s p :
  let s' := (cleanup_orphaned d s).2 in
  st_device_status s' = st_device_status s
  ∧ st_image_metadata s' = st_image_metadata s
  ∧ (st_files s' !! p = st_files s !! p
     ∨ st_files s' !! p = None
       ∧ ∃ name, p = upload_path name ∧ in_scope d name
                 ∧ name ∉ filename <$> images_of d (st_image_metadata s)).
Proof.
  destruct (cleanup_orphaned_run d s) as (r & Hrun & _). cbv zeta in *.
  rewrite Hrun. cbn [snd set_files st_device_status st_image_metadata st_files].
  split; [done|]. split; [done|]. rewrite lookup_delete_all.
  case_decide as Hin; [|by left]. right. split; [done|].
  unfold orphan_paths in Hin.
  apply list_elem_of_fmap in Hin as (name & -> & [Hscope Hin]%list_elem_of_filter).
  exists name. split; [done|]. split; [done|].
  apply elem_of_elements, elem_of_difference in Hin as [_ Hmeta].
  by rewrite elem_of_list_to_set in Hmeta.
Qed.

(** C6: when the upload directory holds plain files only, reconciliation
    returns, and a second reconciliation for the same device, run on the
    state that the first one left, removes 0 files and leaves that state as
    it is. *)
Theorem cleanup_orphaned_idempotent (d : string) (s : State) :
  plain_directory s →
  ∃ r1 s1 r2,
    cleanup_orphaned d s = (Returned r1, s1)
    ∧ cleanup_orphaned d s1 = (Returned r2, s1)
    ∧ removed_count r2 = 0.
Proof.
  intros _.
  destruct (cleanup_orphaned_run d s) as (r1 & Hrun1 & _).
  cbv zeta in Hrun1.
  set (names := elements (_ ∖ _)) in Hrun1.
  set (s1 := set_files (delete_all (orphan_paths d names)) s) in *.
  destruct (cleanup_orphaned_run d s1) as (r2 & Hrun2 & Hzero).
  cbv zeta in Hrun2, Hzero.
  set (names1 := elements (_ ∖ _)) in Hrun2, Hzero.
  assert (Hnone : filter (in_scope d) names1 = []).
  { destruct (filter (in_scope d) names1) as [|name rest] eqn:Hf; [done|].
    exfalso.
    assert (Hin : name ∈ filter (in_scope d) names1) by (rewrite Hf; by left).
    apply list_elem_of_filter in Hin as [Hscope Hin].
    apply elem_of_elements, elem_of_difference in Hin as [Hlist Hmeta].
    apply elem_of_list_to_set, elem_of_listdir in Hlist as [Hsep Hfile].
    cbn in Hfile. rewrite lookup_delete_all in Hfile.
    case_decide as Hdel; [by destruct Hfile|].
    apply Hdel. unfold orphan_paths. apply list_elem_of_fmap_2.
    apply list_elem_of_filter. split; [done|].
    apply elem_of_elements, elem_of_difference. split; [|exact Hmeta].
    by apply elem_of_list_to_set, elem_of_listdir. }
  exists r1, s1, r2. split; [exact Hrun1|]. split; [|by apply Hzero].
  rewrite Hrun2. f_equal. unfold orphan_paths. rewrite Hnone.
  by destruct s1.
Qed.

Lemma cleanup_orphaned_idempotent_witness :
  ∃ r1 s1 r2,
    cleanup_orphaned "cam-b" one_orphan = (Returned r1, s1)
    ∧ cleanup_orphaned "cam-b" s1 = (Returned r2, s1)
    ∧ removed_count r2 = 0.
Proof.
  apply cleanup_orphaned_idempotent, plain_directory_one_orphan.
Defined.

(** ** Uploads: running one upload *)

Lemma upload_image_rejected image dev timestamp now s :
  dev = None ∨ dev = Some "" →
  upload_image image dev timestamp now s
  = (Raised (HTTPException 400 "device_id is required"), s).
Proof. by intros [-> | ->]. Qed.

Lemma upload_image_run image d timestamp now s :
  d ≠ "" →
  let s1 := stored image d timestamp now s in
  upload_image image (Some d) timestamp now s =
  match for_each (to_evict d (st_image_metadata s1)) evict s1 with
  | (Returned _, s') =>
      (Returned (mkUploadResponse "Image uploaded successfully"
                                  (image_filename d timestamp)), s')
  | (Raised e, s') => (Raised e, s')
  end.
Proof.
  intros Hd s1. destruct d as [|a d]; [done|].
  unfold upload_image, write_file. rewrite run_modify, run_modify, run_gets.
  rewrite run_bind. unfold to_evict. fold s1.
  change (set_image_metadata _ (set_files _ s)) with s1.
  destruct (decide (20 < length (images_of (String a d) (st_image_metadata s1)))%nat).
  - by destruct (for_each _ evict s1) as [[[]|e] s'].
  - reflexivity.
Qed.

Lemma evict_run img s :
  evict img s =
  match st_files s !! file_path img with
  | None => (Returned tt, s)
  | Some _ =>
      match list_remove img (st_image_metadata s) with
      | Some md' =>
          (Returned tt,
           mkState (st_device_status s) md' (delete (file_path img) (st_files s)))
      | None => (Raised ValueError, set_files (delete (file_path img)) s)
      end
  end.
Proof.
  unfold evict, try_except_FileNotFoundError. rewrite run_bind.
  unfold os_remove. destruct (st_files s !! file_path img); [|done].
  rewrite run_gets. cbn [st_image_metadata set_files].
  by destruct (list_remove img (st_image_metadata s)).
Qed.

Section ListRemove.
Context {A : Type} `{EqDecision A}.

Lemma list_remove_is_Some (x : A) l : x ∈ l → is_Some (list_remove x l).
Proof.
  induction l as [|y l IH]; [by intros ?%elem_of_nil|].
  intros Hin. cbn [list_remove]. destruct (decide (y = x)) as [|Hne]; [by eexists|].
  apply elem_of_cons in Hin as [->|Hin]; [done|].
  destruct (IH Hin) as [l' ->]. by eexists.
Qed.

Lemma list_remove_Some_perm (x : A) l l' : list_remove x l = Some l' → l ≡ₚ x :: l'.
Proof.
  revert l'. induction l as [|y l IH]; intros l'; cbn [list_remove]; [done|].
  destruct (decide (y = x)) as [->|Hne]; [by intros [= ->]|].
  destruct (list_remove x l) as [l0|]; [|done]. cbn. intros [= <-].
  rewrite (IH l0 eq_refl). apply perm_swap.
Qed.

Lemma list_remove_filter (P : A → Prop) `{!∀ x, Decision (P x)} (x : A) l l' :
  list_remove x l = Some l' →
  if decide (P x) then list_remove x (filter P l) = Some (filter P l')
  else filter P l' = filter P l.
Proof.
  revert l'. induction l as [|y l IH]; intros l'; cbn [list_remove]; [done|].
  destruct (decide (y = x)) as [->|Hne].
  - intros [= ->]. destruct (decide (P x)) as [HP|HP].
    + rewrite filter_cons_True by done. cbn [list_remove]. by rewrite decide_True.
    + by rewrite filter_cons_False.
  - destruct (list_remove x l) as [l0|]; [|done]. cbn. intros [= <-].
    specialize (IH l0 eq_refl). rewrite !(filter_cons _ y).
    destruct (decide (P x)); destruct (decide (P y)); [|done|by f_equal|done].
    cbn [list_remove]. rewrite decide_False by done.
    exact (f_equal (fmap (cons y)) IH).
Qed.
End ListRemove.

Lemma images_of_stored image d ts now s :
  images_of d (st_image_metadata (stored image d ts now s))
  = images_of d (st_image_metadata s) ++ [new_record d ts now].
Proof.
  cbn. unfold images_of. rewrite filter_app. by rewrite filter_cons_True.
Qed.

Lemma blobs_present_stored image d ts now s :
  blobs_present d s → blobs_present d (stored image d ts now s).
Proof.
  intros Hpres img. rewrite images_of_stored. cbn [st_files stored].
  intros [Hin| ->%list_elem_of_singleton]%elem_of_app.
  - apply lookup_insert_is_Some'. right. by apply Hpres.
  - apply lookup_insert_is_Some'. by left.
Qed.

(** ** Uploads: what an eviction can touch *)

Lemma evict_frame img s :
  let s' := (evict img s).2 in
  st_device_status s' = st_device_status s
  ∧ (∀ p, p ≠ file_path img → st_files s' !! p = st_files s !! p)
  ∧ (∀ d', device_id img ≠ d' →
           images_of d' (st_image_metadata s') = images_of d' (st_image_metadata s))
  ∧ (∀ x, x ∈ st_image_metadata s' → x ∈ st_image_metadata s).
Proof.
  rewrite evict_run. destruct (st_files s !! file_path img) as [c|]; [|done].
  destruct (list_remove img (st_image_metadata s)) as [md'|] eqn:Hrm; cbn.
  - split; [done|]. split; [|split].
    + intros p Hp. by rewrite lookup_delete_ne.
    + intros d' Hd'.
      pose proof (list_remove_filter (λ x, device_id x = d') _ _ _ Hrm) as Hf.
      by rewrite decide_False in Hf.
    + intros x Hx. rewrite (list_remove_Some_perm _ _ _ Hrm). by right.
  - split; [done|]. split; [|done].
    intros p Hp. by rewrite lookup_delete_ne.
Qed.

Lemma evict_loop_frame l : ∀ s,
  let s' := (for_each l evict s).2 in
  st_device_status s' = st_device_status s
  ∧ (∀ p, p ∉ file_path <$> l → st_files s' !! p = st_files s !! p)
  ∧ (∀ d', Forall (λ img, device_id img ≠ d') l →
           images_of d' (st_image_metadata s') = images_of d' (st_image_metadata s))
  ∧ (∀ x, x ∈ st_image_metadata s' → x ∈ st_image_metadata s).
Proof.
  induction l as [|img l IH]; intros s; [done|].
  cbn [for_each]. rewrite run_bind.
  destruct (evict_frame img s) as (Hreg & Hfiles & Himgs & Hsub).
  destruct (evict img s) as [[[]|e] s1]; cbn [snd] in *.
  - destruct (IH s1) as (Hreg' & Hfiles' & Himgs' & Hsub').
    split; [congruence|]. split; [|split].
    + intros p Hp. rewrite fmap_cons, not_elem_of_cons in Hp. destruct Hp.
      rewrite Hfiles' by done. by apply Hfiles.
    + intros d' [Hd Hl]%Forall_cons. rewrite Himgs' by done. by apply Himgs.
    + intros x Hx. by apply Hsub, Hsub'.
  - split; [done|]. split; [|split].
    + intros p Hp. rewrite fmap_cons, not_elem_of_cons in Hp. destruct Hp.
      by apply Hfiles.
    + intros d' [Hd Hl]%Forall_cons. by apply Himgs.
    + done.
Qed.

Lemma to_evict_elem_of d md img : img ∈ to_evict d md → img ∈ images_of d md.
Proof.
  unfold to_evict. case_decide; [|by intros ?%elem_of_nil].
  intros Hin. rewrite <-(list_sort_perm upload_time false (images_of d md)).
  destruct (slice_to_take_drop (-20) (list_sort upload_time false (images_of d md)))
    as (k & Hk & _). rewrite Hk in Hin. by eapply subseteq_take.
Qed.

(** ** Uploads: cap enforcement does not fail *)

Lemma to_evict_submseteq d md : to_evict d md ⊆+ md.
Proof.
  unfold to_evict. case_decide; [|apply submseteq_nil_l].
  destruct (slice_to_take_drop (-20) (list_sort upload_time false (images_of d md)))
    as (k & -> & _).
  etrans; [apply submseteq_take|].
  rewrite (list_sort_perm upload_time false).
  apply sublist_submseteq, sublist_filter.
Qed.

(** The records still to evict are all in the ledger, with their
    multiplicity; so [list.remove] always finds its argument. *)
Lemma evict_loop_returns l : ∀ s,
  l ⊆+ st_image_metadata s → ∃ s', for_each l evict s = (Returned tt, s').
Proof.
  induction l as [|x l IH]; intros s Hsub; [by eexists|].
  apply submseteq_cons_l in Hsub as (k' & Hperm & Hsub).
  cbn [for_each]. rewrite run_bind, evict_run.
  destruct (st_files s !! file_path x) as [c|].
  - destruct (list_remove_is_Some x (st_image_metadata s)) as [md' Hrm].
    { rewrite Hperm. by left. }
    rewrite Hrm. apply IH. cbn [st_image_metadata].
    apply list_remove_Some_perm in Hrm. rewrite Hperm in Hrm.
    apply Permutation_cons_inv in Hrm. by rewrite <-Hrm.
  - apply IH. rewrite Hperm. by apply submseteq_cons.
Qed.

(** An upload with a device identifier always succeeds. *)
Lemma upload_image_returns image d timestamp now s :
  d ≠ "" →
  ∃ s', upload_image image (Some d) timestamp now s
        = (Returned (mkUploadResponse "Image uploaded successfully"
                                      (image_filename d timestamp)), s').
Proof.
  intros Hd. rewrite upload_image_run by done. cbv zeta.
  destruct (evict_loop_returns _ _ (to_evict_submseteq d
              (st_image_metadata (stored image d timestamp now s))))
    as (s' & ->).
  by exists s'.
Qed.

(** ** Uploads: the cap when every record has its own file *)

Lemma evict_loop_all_evicted d l : ∀ s,
  Forall (λ x, device_id x = d) l →
  NoDup (file_path <$> l) →
  l ⊆+ st_image_metadata s →
  (∀ x, x ∈ l → is_Some (st_files s !! file_path x)) →
  ∃ s', for_each l evict s = (Returned tt, s')
        ∧ (length (images_of d (st_image_metadata s')) + length l
           = length (images_of d (st_image_metadata s)))%nat.
Proof.
  induction l as [|x l IH]; intros s Hdev Hnd Hsub Hfiles.
  { exists s. split; [done|]. cbn [length]. lia. }
  apply Forall_cons in Hdev as [Hx Hdev].
  rewrite fmap_cons in Hnd. apply NoDup_cons in Hnd as [Hpath Hnd].
  apply submseteq_cons_l in Hsub as (k' & Hperm & Hsub).
  cbn [for_each]. rewrite run_bind, evict_run.
  destruct (Hfiles x) as [c ->]; [by left|].
  destruct (list_remove_is_Some x (st_image_metadata s)) as [md' Hrm].
  { rewrite Hperm. by left. }
  rewrite Hrm.
  pose proof (list_remove_filter (λ img, device_id img = d) _ _ _ Hrm) as Hf.
  rewrite decide_True in Hf by done.
  apply list_remove_Some_perm, Permutation_length in Hf. cbn [length] in Hf.
  destruct (IH (mkState (st_device_status s) md'
                        (delete (file_path x) (st_files s))))
    as (s' & Hrun & Hlen); [done|done|..].
  - cbn [st_image_metadata]. apply list_remove_Some_perm in Hrm.
    rewrite Hperm in Hrm. apply Permutation_cons_inv in Hrm. by rewrite <-Hrm.
  - intros y Hy. cbn [st_files]. rewrite lookup_delete_ne.
    + apply Hfiles. by right.
    + intros Heq. apply Hpath. rewrite Heq. by apply list_elem_of_fmap_2.
  - exists s'. split; [exact Hrun|]. cbn [st_image_metadata length] in *.
    unfold images_of in *. lia.
Qed.

(** X17: the identifier is a plain file-name component, the upload directory
    holds plain files only and [timestamp] is a formatted clock reading.
    When the records of the device, the new one included, have pairwise
    distinct files and all of them are on disk, the upload returns and cap
    enforcement leaves at most 20 records of the device. *)
Lemma upload_image_cap image d timestamp now s :
  plain_id d = true →
  plain_directory s →
  is_timestamp timestamp = true →
  NoDup (file_path <$> images_of d (st_image_metadata
                                      (stored image d timestamp now s))) →
  blobs_present d s →
  ∃ r s', upload_image image (Some d) timestamp now s = (Returned r, s')
          ∧ (length (images_of d (st_image_metadata s')) ≤ 20)%nat.
Proof.
  intros Hd%plain_id_nonempty _ _ Hnd Hpres.
  rewrite upload_image_run by done. cbv zeta.
  set (s1 := stored image d timestamp now s) in *.
  set (imgs := images_of d (st_image_metadata s1)) in *.
  assert (Hl : ∃ k, to_evict d (st_image_metadata s1)
                    = take k (list_sort upload_time false imgs)
             ∧ (length imgs ≤ 20 + length (to_evict d (st_image_metadata s1)))%nat).
  { unfold to_evict. fold imgs. case_decide as Hlen.
    - unfold slice_to. cbn [Z.ltb Z.compare]. eexists. split; [done|].
      rewrite length_take, (Permutation_length (list_sort_perm _ _ imgs)). lia.
    - exists 0%nat. split; [done|]. cbn [length]. lia. }
  destruct Hl as (k & Hk & Hlen).
  destruct (evict_loop_all_evicted d (to_evict d (st_image_metadata s1)) s1)
    as (s' & -> & Hcount).
  - apply Forall_forall. intros x Hx. apply to_evict_elem_of in Hx.
    by apply images_of_elem_of in Hx as [? _].
  - rewrite Hk, fmap_take. eapply sublist_NoDup; [|apply sublist_take].
    by rewrite (list_sort_perm upload_time false).
  - apply to_evict_submseteq.
  - intros x Hx. apply to_evict_elem_of in Hx.
    by apply (blobs_present_stored image d timestamp now s Hpres).
  - eexists _, s'. split; [reflexivity|]. fold imgs in Hcount. lia.
Qed.

(** ** File names of uploads *)

Lemma is_timestamp_length ts : is_timestamp ts = true → String.length ts = 15%nat.
Proof.
  unfold is_timestamp. rewrite !andb_true_iff.
  intros [[[Hlen _] _] _]. by apply bool_decide_eq_true in Hlen.
Qed.

Lemma string_app_length (a b : string) :
  String.length (a +:+ b) = (String.length a + String.length b)%nat.
Proof.
  induction a as [|c a IH]; [done|].
  rewrite string_app_cons. cbn [String.length]. by rewrite IH.
Qed.

Lemma string_app_inj_length (a a' b b' : string) :
  String.length b = String.length b' →
  a +:+ b = a' +:+ b' → a = a' ∧ b = b'.
Proof.
  intros Hlen Heq.
  assert (Hla : String.length a = String.length a').
  { apply (f_equal String.length) in Heq. rewrite !string_app_length in Heq. lia. }
  clear Hlen. revert a' Heq Hla.
  induction a as [|c a IH]; intros [|c' a'] Heq Hla; try done.
  rewrite !string_app_cons in Heq. injection Heq as -> Heq.
  cbn [String.length] in Hla. destruct (IH a' Heq) as [-> ->]; [lia|done].
Qed.


Lemma startswith_separator_inv name :
  startswith name "/" = true → ∃ rest, name = String "/" rest.
Proof.
  unfold startswith. destruct name as [|a name]; [done|].
  cbn [String.prefix]. destruct (ascii_dec "/" a) as [<-|]; [by eexists|done].
Qed.

Lemma os_path_join_absolute name :
  startswith name "/" = true → os_path_join UPLOAD_DIR name = name.
Proof. unfold os_path_join. by intros ->. Qed.

Lemma os_path_join_inj name name' :
  os_path_join UPLOAD_DIR name = os_path_join UPLOAD_DIR name' → name = name'.
Proof.
  destruct (startswith name "/") eqn:Hn; destruct (startswith name' "/") eqn:Hn'.
  - by rewrite !os_path_join_absolute.
  - rewrite os_path_join_absolute, os_path_join_upload by done.
    apply startswith_separator_inv in Hn as [rest ->]. done.
  - rewrite os_path_join_upload, os_path_join_absolute by done.
    apply startswith_separator_inv in Hn' as [rest ->]. done.
  - rewrite !os_path_join_upload by done. apply String.app_inj.
Qed.


Lemma new_record_generated d ts now :
  is_timestamp ts = true → generated (new_record d ts now).
Proof. intros Hts. by exists ts. Qed.

Lemma upload_image_ledger_wf image dev ts now s :
  ledger_wf (st_image_metadata s) → is_timestamp ts = true →
  ledger_wf (st_image_metadata (upload_image image dev ts now s).2).
Proof.
  intros Hwf Hts.
  destruct (decide (dev = None ∨ dev = Some "")) as [Hrej|Hok].
  { by rewrite upload_image_rejected. }
  destruct dev as [d|]; [|by destruct Hok; left].
  assert (Hd : d ≠ "") by (intros ->; apply Hok; by right).
  rewrite upload_image_run by done. cbv zeta.
  set (s1 := stored image d ts now s).
  destruct (evict_loop_frame (to_evict d (st_image_metadata s1)) s1)
    as (_ & _ & _ & Hsub).
  assert (Hwf1 : ledger_wf (st_image_metadata s1)).
  { apply Forall_app. split; [done|]. apply Forall_singleton.
    by apply new_record_generated. }
  assert (Hres : ledger_wf (st_image_metadata
            (for_each (to_evict d (st_image_metadata s1)) evict s1).2)).
  { apply Forall_forall. intros x Hx. apply Hsub in Hx.
    by eapply Forall_forall in Hwf1. }
  by destruct (for_each _ evict s1) as [[[]|e] s'].
Qed.

(** ** Uploads: frame *)



(** ** Uploads: oldest-first eviction *)

Lemma uploads_below_cap d reqs : ∀ s,
  d ≠ "" →
  (length (images_of d (st_image_metadata s)) + length reqs ≤ 20)%nat →
  blobs_present d s →
  ∃ s', uploads d reqs s = (Returned tt, s')
        ∧ images_of d (st_image_metadata s')
          = images_of d (st_image_metadata s) ++ (record_of d <$> reqs)
        ∧ blobs_present d s'.
Proof.
  induction reqs as [|rq reqs IH]; intros s Hd Hlen Hpres.
  - exists s. by rewrite app_nil_r.
  - unfold uploads. cbn [for_each]. rewrite !run_bind.
    rewrite upload_image_run by done. cbv zeta.
    set (s1 := stored (rq_image rq) d (rq_timestamp rq) (rq_now rq) s).
    assert (Himgs : images_of d (st_image_metadata s1)
                    = images_of d (st_image_metadata s) ++ [record_of d rq])
      by apply images_of_stored.
    unfold to_evict. rewrite decide_False; last first.
    { rewrite Himgs, length_app. cbn [length] in *. lia. }
    cbn [for_each]. run_returns.
    destruct (IH s1 Hd) as (s' & Hrun & Himgs' & Hpres').
    + rewrite Himgs, length_app. cbn [length] in *. lia.
    + by apply blobs_present_stored.
    + exists s'. split; [exact Hrun|]. split; [|done].
      rewrite Himgs', Himgs, fmap_cons. by rewrite <-app_assoc.
Qed.

Lemma slice_to_oldest {A} (x : A) (l : list A) :
  length l = 20%nat → slice_to (-20) (x :: l) = [x].
Proof. intros Hlen. unfold slice_to. cbn [length Z.ltb Z.compare]. by rewrite Hlen. Qed.

Lemma upload_at_cap image d ts now s x l :
  d ≠ "" →
  images_of d (st_image_metadata s) = x :: l →
  length l = 19%nat →
  Sorted (in_order upload_time false) (x :: l ++ [new_record d ts now]) →
  blobs_present d s →
  ∃ r s', upload_image image (Some d) ts now s = (Returned r, s')
          ∧ images_of d (st_image_metadata s') = l ++ [new_record d ts now]
          ∧ st_files s' !! file_path x = None.
Proof.
  intros Hd Himgs Hlen Hsorted Hpres.
  rewrite upload_image_run by done. cbv zeta.
  set (s1 := stored image d ts now s).
  assert (Himgs1 : images_of d (st_image_metadata s1) = x :: l ++ [new_record d ts now]).
  { unfold s1. rewrite images_of_stored, Himgs. done. }
  assert (Hx : x ∈ images_of d (st_image_metadata s1)) by (rewrite Himgs1; by left).
  unfold to_evict. rewrite Himgs1. rewrite decide_True; last first.
  { cbn [length]. rewrite length_app. cbn [length]. lia. }
  rewrite list_sort_id by done.
  rewrite slice_to_oldest by (rewrite length_app; cbn [length]; lia).
  cbn [for_each]. rewrite run_bind, evict_run.
  destruct (blobs_present_stored image d ts now s Hpres x Hx) as [c Hc].
  fold s1 in Hc. rewrite Hc.
  apply images_of_elem_of in Hx as [Hxd Hxin].
  destruct (list_remove_is_Some x _ Hxin) as [md' Hrm]. rewrite Hrm.
  eexists _, _. split; [reflexivity|]. cbn [st_image_metadata st_files]. split.
  - pose proof (list_remove_filter (λ img, device_id img = d) _ _ _ Hrm) as Hf.
    rewrite decide_True in Hf by done.
    change (list_remove x (images_of d (st_image_metadata s1))
            = Some (images_of d md')) in Hf.
    rewrite Himgs1 in Hf. cbn [list_remove] in Hf.
    rewrite decide_True in Hf by done. by injection Hf as <-.
  - apply lookup_delete_eq.
Qed.

Lemma sorted_records d reqs :
  Sorted Z.lt (rq_now <$> reqs) →
  Sorted (in_order upload_time false) (record_of d <$> reqs).
Proof.
  induction reqs as [|rq reqs IH]; [constructor|].
  rewrite !fmap_cons. intros [Hs Hhd]%Sorted_inv. constructor; [by apply IH|].
  destruct reqs as [|rq' reqs]; [constructor|].
  rewrite fmap_cons in *. apply HdRel_inv in Hhd. constructor.
  unfold in_order. cbn. lia.
Qed.

(** C4: a device without records posts 21 images, one after the other and
    with strictly increasing [upload_time]s.  Every upload succeeds, and
    after the 21st the records of the device are exactly those of uploads
    #2 to #21, in that order, while no file is left under the path of
    upload #1.  The device identifier is a plain file-name component that
    the file system accepts, the upload directory holds plain files only
    and the file-name timestamps are formatted clock readings. *)
Theorem oldest_first_eviction d first rest s :
  plain_id d = true →
  plain_directory s →
  Forall (λ rq, is_timestamp (rq_timestamp rq) = true) (first :: rest) →
  images_of d (st_image_metadata s) = [] →
  length rest = 20%nat →
  Sorted Z.lt (rq_now <$> first :: rest) →
  ∃ s', uploads d (first :: rest) s = (Returned tt, s')
        ∧ images_of d (st_image_metadata s') = record_of d <$> rest
        ∧ st_files s' !! file_path (record_of d first) = None.
Proof.
  intros Hd%plain_id_nonempty _ _ Hnone Hlen Hsorted.
  destruct rest as [|lst mid _] using rev_ind; [done|].
  rewrite length_app in Hlen. cbn [length] in Hlen.
  destruct (uploads_below_cap d (first :: mid) s Hd) as (s20 & Hrun & Himgs & Hpres).
  { rewrite Hnone. cbn [length]. lia. }
  { intros img. rewrite Hnone. by intros ?%elem_of_nil. }
  rewrite Hnone, app_nil_l, fmap_cons in Himgs.
  destruct (upload_at_cap (rq_image lst) d (rq_timestamp lst) (rq_now lst) s20
              (record_of d first) (record_of d <$> mid) Hd Himgs)
    as (r & s' & Hlast & Himgs' & Hgone).
  { rewrite length_fmap. lia. }
  { apply (sorted_records d) in Hsorted.
    by rewrite fmap_cons, fmap_app in Hsorted. }
  { exact Hpres. }
  exists s'. split; [|split; [|exact Hgone]].
  - unfold uploads in *. rewrite app_comm_cons, for_each_app, Hrun.
    cbn [for_each]. by rewrite !run_bind, Hlast.
  - by rewrite Himgs', fmap_app.
Qed.

Lemma oldest_first_eviction_witness :
  ∃ s', uploads "pi" (request_at 0 :: every_second) initial = (Returned tt, s')
        ∧ images_of "pi" (st_image_metadata s') = record_of "pi" <$> every_second
        ∧ st_files s' !! "uploads/pi-20240101_120000.png" = None.
Proof.
  apply (oldest_first_eviction "pi" (request_at 0) every_second initial).
  - reflexivity.
  - apply plain_directory_initial.
  - vm_compute. repeat constructor.
  - reflexivity.
  - reflexivity.
  - vm_compute. repeat constructor.
Defined.

(** ** Runs that depart from the specification *)

(** C1 (the code departs from the claim): after 22 uploads of one device,
    the first two of them within one second, every upload has succeeded and
    the ledger holds 21 records of the device. *)
Theorem cap_exceeded_after_same_second_uploads :
  (uploads "pi" burst initial).1 = Returned tt
  ∧ length (images_of "pi" (st_image_metadata (uploads "pi" burst initial).2))
    = 21%nat.
Proof. split; vm_compute; reflexivity. Qed.

(** C3 (the code departs from the claim): in the 22nd upload of [burst] the
    record selected for eviction is [stale], whose file is absent; the upload
    succeeds, so the missing file is swallowed, but [stale] is still in the
    ledger afterwards. *)
Theorem eviction_keeps_record_of_missing_file :
  let last_upload := upload_image [] (Some "pi") (clock_stamp 20000000) 20000000 in
  let s1 := stored [] "pi" (clock_stamp 20000000) 20000000 before_last in
  to_evict "pi" (st_image_metadata s1) = [stale]
  ∧ st_files s1 !! file_path stale = None
  ∧ (last_upload before_last).1
    = Returned (mkUploadResponse "Image uploaded successfully"
                                 "pi-20240101_120020.png")
  ∧ stale ∈ st_image_metadata (last_upload before_last).2.
Proof.
  cbv zeta. split; [|split; [|split]]; [vm_compute; reflexivity..|].
  vm_compute. left.
Qed.

(** C2 (the code departs from the claim): a reconciliation for "pi" deletes
    the file of the only ledger record of device "pi-2", and counts it as
    removed. *)
Theorem cleanup_orphaned_deletes_other_device :
  let victim := record_of "pi-2" (request_at 1000000) in
  images_of "pi-2" (st_image_metadata two_cameras) = [victim]
  ∧ file_path victim = blob_path "pi-2" "20240101_120001"
  ∧ st_files two_cameras !! file_path victim = Some []
  ∧ (cleanup_orphaned "pi" two_cameras).1
    = Returned (mkCleanupResponse "Cleaned up 1 orphaned files" 1)
  ∧ st_files (cleanup_orphaned "pi" two_cameras).2 !! file_path victim = None.
Proof. cbv zeta. repeat split; vm_compute; reflexivity. Qed.

(** * Further properties *)

(** ** The device registry: heartbeats and sweeps together *)

Lemma heartbeat_run d st t s :
  heartbeat d st t s
  = (Returned (mkHeartbeatResponse "Heartbeat received" d),
     set_device_status (insert d (mkDeviceInfo st t)) s).
Proof. reflexivity. Qed.

Lemma swept_swept c c' o : c ≤ c' → swept c' (swept c o) = swept c' o.
Proof.
  intros Hle. destruct o as [info|]; [|done]. cbn [swept].
  destruct (decide (expired c info)) as [[Hoff Hlt]|Hne]; [|done].
  cbn [swept]. rewrite decide_True; [done|]. split; [done|lia].
Qed.

(** X1: a heartbeat followed by a listing of the devices.  Neither fails.
    The device [d] is listed with the status and time of the heartbeat,
    unless the status is "offline" and the heartbeat is more than five
    minutes old at the listing; every other device is listed as if the
    heartbeat had not happened; ledger and files are untouched. *)
Theorem heartbeat_then_get_devices d st t now s :
  ∃ reg',
    (heartbeat d st t ;; get_devices now) s
    = (Returned reg', mkState reg' (st_image_metadata s) (st_files s))
    ∧ reg' !! d = (if decide (st = "offline" ∧ t < now - timedelta_minutes 5)
                   then None else Some (mkDeviceInfo st t))
    ∧ ∀ k, k ≠ d →
           reg' !! k = swept (now - timedelta_minutes 5) (st_device_status s !! k).
Proof.
  rewrite run_bind, heartbeat_run.
  destruct (get_devices_run now (set_device_status (insert d (mkDeviceInfo st t)) s))
    as (reg' & Hrun & Hlook).
  exists reg'. split; [exact Hrun|]. split.
  - rewrite Hlook. cbn [set_device_status st_device_status].
    rewrite lookup_insert_eq. unfold swept, expired. cbn [status last_seen].
    by repeat case_decide.
  - intros k Hk. rewrite Hlook. cbn [set_device_status st_device_status].
    by rewrite lookup_insert_ne.
Qed.

(** X2: the registry keeps no history and devices do not interfere.  Of two
    heartbeats of one device only the second is kept; two heartbeats of
    different devices leave the same state in either order. *)
Theorem heartbeat_last_write_wins d d' st st' t t' s :
  (heartbeat d st t ;; heartbeat d st' t') s = heartbeat d st' t' s
  ∧ (d ≠ d' →
     ((heartbeat d st t ;; heartbeat d' st' t') s).2
     = ((heartbeat d' st' t' ;; heartbeat d st t) s).2).
Proof.
  rewrite !run_bind, !heartbeat_run. unfold set_device_status.
  cbn [st_device_status st_image_metadata st_files snd]. split.
  - by rewrite insert_insert_eq.
  - intros Hne. f_equal. by apply insert_insert_ne.
Qed.

Lemma heartbeat_last_write_wins_witness :
  ((heartbeat "cam-a" "online" 1 ;; heartbeat "cam-b" "offline" 2) initial).2
  = ((heartbeat "cam-b" "offline" 2 ;; heartbeat "cam-a" "online" 1) initial).2.
Proof.
  apply (heartbeat_last_write_wins "cam-a" "cam-b" "online" "offline" 1 2 initial).
  discriminate.
Defined.

(** X3: sweeps compose.  A listing of the devices at [now] followed by one at
    a later (or the same) instant [now'] returns the same registry and
    leaves the same state as the listing at [now'] alone; in particular a
    repeated listing at one instant removes nothing more. *)
Theorem get_devices_twice now now' s :
  now ≤ now' →
  (get_devices now ;; get_devices now') s = get_devices now' s.
Proof.
  intros Hle. rewrite run_bind.
  destruct (get_devices_run now s) as (reg1 & -> & Hlook1).
  destruct (get_devices_run now' (mkState reg1 (st_image_metadata s) (st_files s)))
    as (reg2 & -> & Hlook2).
  destruct (get_devices_run now' s) as (reg3 & -> & Hlook3).
  cbn [st_device_status st_image_metadata st_files] in *.
  assert (reg2 = reg3) as ->; [|done].
  apply map_eq. intros k. rewrite Hlook2, Hlook1, Hlook3.
  apply swept_swept. lia.
Qed.

Lemma get_devices_twice_witness :
  (get_devices (timedelta_minutes 6) ;; get_devices (timedelta_minutes 7)) two_devices
  = get_devices (timedelta_minutes 7) two_devices.
Proof. apply get_devices_twice. unfold timedelta_minutes. lia. Defined.

Lemma swept_registry c (reg reg' : gmap string DeviceInfo) :
  (∀ k, reg' !! k = swept c (reg !! k)) →
  reg' = filter (λ item, ¬ expired c item.2) reg.
Proof.
  intros Hlook. apply map_eq. intros k. rewrite Hlook, map_lookup_filter.
  destruct (reg !! k) as [info|]; [|done]. cbn.
  destruct (decide (expired c info)).
  - by rewrite option_guard_False by tauto.
  - by rewrite option_guard_True.
Qed.

(** X4: [get_system_status] reads the registry without sweeping it.  It
    never fails and changes no state; its [total_devices] is the number of
    devices that a listing at the same instant returns plus the number of
    records that this listing expires; its [online_devices] lies between 0
    and the number of devices listed; its [total_images] is the length of
    the ledger, all devices together. *)
Theorem get_system_status_totals now s :
  ∃ st reg' s',
    get_system_status now s = (Returned st, s)
    ∧ get_devices now s = (Returned reg', s')
    ∧ total_devices st
      = Z.of_nat (size reg')
        + Z.of_nat (size (filter (λ item, expired (now - timedelta_minutes 5) item.2)
                                 (st_device_status s)))
    ∧ 0 ≤ online_devices st ≤ Z.of_nat (size reg')
    ∧ total_images st = Z.of_nat (length (st_image_metadata s))
    ∧ status_timestamp st = now.
Proof.
  destruct (get_devices_run now s) as (reg' & Hrun & Hlook).
  eexists _, reg', _. split; [reflexivity|]. split; [exact Hrun|].
  cbn [total_devices online_devices total_images status_timestamp].
  apply swept_registry in Hlook. set (c := now - timedelta_minutes 5) in *.
  set (reg := st_device_status s) in *.
  split; [|split; [|done]].
  - rewrite <-(map_filter_union_complement (λ item, expired c item.2) reg) at 1.
    rewrite map_size_disj_union by apply map_disjoint_filter_complement.
    rewrite Hlook. lia.
  - rewrite count_online_size. split; [lia|].
    apply inj_le, map_subseteq_size. rewrite Hlook.
    apply map_subseteq_spec. intros k info.
    rewrite !map_lookup_filter_Some. unfold is_online, expired. cbn [snd].
    intros [Hk Hon]. split; [done|]. intros [Hoff _]. congruence.
Qed.

(** ** Uploads: outcome and what cap enforcement keeps *)

(** X5: an upload without device identifier, or with the empty one, is
    rejected with status 400 before anything is written.  With a plain
    identifier, on a state with a directory of plain files and a ledger
    filled by such uploads, and with a formatted timestamp, it returns the
    generated file name: [list.remove] never raises in the eviction loop. *)
Theorem upload_image_outcome image dev timestamp now s :
  (dev = None ∨ dev = Some "" →
   upload_image image dev timestamp now s
   = (Raised (HTTPException 400 "device_id is required"), s))
  ∧ (∀ d, dev = Some d →
          plain_id d = true → plain_state s → is_timestamp timestamp = true →
          ∃ s', upload_image image dev timestamp now s
                = (Returned (mkUploadResponse "Image uploaded successfully"
                               (d +:+ "-" +:+ timestamp +:+ ".png")), s')).
Proof.
  split; [by apply upload_image_rejected|].
  intros d -> Hd%plain_id_nonempty _ _.
  rewrite upload_image_run by done. cbv zeta.
  destruct (evict_loop_returns _ _ (to_evict_submseteq d
              (st_image_metadata (stored image d timestamp now s))))
    as (s' & ->).
  by exists s'.
Qed.

Lemma upload_image_outcome_witness :
  upload_image [] (Some "") "20240101_120000" 5 initial
  = (Raised (HTTPException 400 "device_id is required"), initial)
  ∧ ∃ s', upload_image [] (Some "pi") "20240101_120000" 5 initial
          = (Returned (mkUploadResponse "Image uploaded successfully"
                         "pi-20240101_120000.png"), s').
Proof.
  split.
  - apply (proj1 (upload_image_outcome [] (Some "") "20240101_120000" 5 initial)).
    by right.
  - apply (proj2 (upload_image_outcome [] (Some "pi") "20240101_120000" 5 initial)
             "pi");
      [reflexivity|reflexivity|apply plain_state_initial|reflexivity].
Defined.

Lemma filter_all {A} (P : A → Prop) `{!∀ x, Decision (P x)} (l : list A) :
  Forall P l → filter P l = l.
Proof.
  induction 1 as [|x l Hx Hl IH]; [done|].
  by rewrite filter_cons_True, IH.
Qed.

Lemma filter_submseteq {A} (P : A → Prop) `{!∀ x, Decision (P x)} (l k : list A) :
  l ⊆+ k → filter P l ⊆+ filter P k.
Proof.
  intros [k' ->]%submseteq_Permutation. rewrite filter_app.
  by apply submseteq_inserts_r.
Qed.

Lemma to_evict_take d md :
  to_evict d md
  = take (length (images_of d md) - 20)
         (list_sort upload_time false (images_of d md)).
Proof.
  unfold to_evict. case_decide as Hlen.
  - unfold slice_to. cbn [Z.ltb Z.compare]. f_equal.
    rewrite (Permutation_length (list_sort_perm upload_time false _)). lia.
  - by replace (length (images_of d md) - 20)%nat with 0%nat by lia.
Qed.

(** The records set aside in [keep] survive the eviction loop, which never
    raises and only removes records. *)
Lemma evict_loop_keeps l : ∀ s keep,
  l ++ keep ⊆+ st_image_metadata s →
  ∃ s', for_each l evict s = (Returned tt, s')
        ∧ keep ⊆+ st_image_metadata s'
        ∧ st_image_metadata s' ⊆+ st_image_metadata s.
Proof.
  induction l as [|x l IH]; intros s keep Hsub; [by exists s|].
  rewrite <-app_comm_cons in Hsub.
  apply submseteq_cons_l in Hsub as (k' & Hperm & Hsub).
  cbn [for_each]. rewrite run_bind, evict_run.
  destruct (st_files s !! file_path x) as [c|].
  - destruct (list_remove_is_Some x (st_image_metadata s)) as [md' Hrm].
    { rewrite Hperm. by left. }
    rewrite Hrm. apply list_remove_Some_perm in Hrm.
    assert (Hk : k' ≡ₚ md').
    { rewrite Hperm in Hrm. by apply Permutation_cons_inv in Hrm. }
    destruct (IH (mkState (st_device_status s) md'
                          (delete (file_path x) (st_files s))) keep)
      as (s' & Hrun & Hkeep & Hshrink).
    { cbn [st_image_metadata]. by rewrite <-Hk. }
    exists s'. split; [exact Hrun|]. split; [exact Hkeep|].
    cbn [st_image_metadata] in Hshrink. etrans; [exact Hshrink|].
    rewrite Hrm. by apply submseteq_cons.
  - apply IH. rewrite Hperm. by apply submseteq_cons.
Qed.

(** What one upload with a device identifier does, in terms of the records
    of the device: [imgs] before eviction, [kept] the (at most) 20 latest. *)
Lemma upload_image_kept image d timestamp now s :
  d ≠ "" →
  let imgs := images_of d (st_image_metadata s) ++ [new_record d timestamp now] in
  let sorted := list_sort upload_time false imgs in
  ∃ r s',
    upload_image image (Some d) timestamp now s = (Returned r, s')
    ∧ s' = (for_each (take (length imgs - 20) sorted) evict
              (stored image d timestamp now s)).2
    ∧ images_of d (st_image_metadata s') ⊆+ imgs
    ∧ drop (length imgs - 20) sorted ⊆+ images_of d (st_image_metadata s').
Proof.
  intros Hd imgs sorted. rewrite upload_image_run by done. cbv zeta.
  set (s1 := stored image d timestamp now s).
  assert (Himgs : images_of d (st_image_metadata s1) = imgs)
    by apply images_of_stored.
  rewrite to_evict_take, Himgs. fold sorted.
  set (k := (length imgs - 20)%nat).
  destruct (evict_loop_keeps (take k sorted) s1 (drop k sorted))
    as (s' & Hrun & Hkeep & Hshrink).
  { rewrite take_drop. unfold sorted.
    rewrite (list_sort_perm upload_time false), <-Himgs.
    apply sublist_submseteq, sublist_filter. }
  rewrite Hrun. eexists _, s'. split; [reflexivity|]. split; [done|]. split.
  - rewrite <-Himgs. by apply filter_submseteq.
  - apply (filter_submseteq (λ img, device_id img = d)) in Hkeep.
    rewrite filter_all in Hkeep; [exact Hkeep|].
    apply Forall_forall. intros x Hx.
    apply subseteq_drop in Hx. unfold sorted in Hx. rewrite (list_sort_perm upload_time false) in Hx.
    rewrite <-Himgs in Hx. by apply images_of_elem_of in Hx as [? _].
Qed.

(** X6: cap enforcement never evicts one of the 20 latest records.  After
    an upload (plain identifier, formatted timestamp, a state with a
    directory of plain files and a ledger filled by such uploads), the
    records of the device are among those it had plus the new one, and
    they include the last 20 of these in ascending [upload_time] order
    (insertion order among equal times): the device keeps at least
    [min 20 n] records, [n] counting the new one, and never more than [n]. *)
Theorem upload_image_keeps_latest image d timestamp now s :
  plain_id d = true →
  plain_state s →
  is_timestamp timestamp = true →
  let imgs := images_of d (st_image_metadata s) ++ [new_record d timestamp now] in
  ∃ r s',
    upload_image image (Some d) timestamp now s = (Returned r, s')
    ∧ images_of d (st_image_metadata s') ⊆+ imgs
    ∧ drop (length imgs - 20) (list_sort upload_time false imgs)
      ⊆+ images_of d (st_image_metadata s')
    ∧ (20 `min` length imgs ≤ length (images_of d (st_image_metadata s'))
       ≤ length imgs)%nat.
Proof.
  intros Hd%plain_id_nonempty _ _ imgs.
  destruct (upload_image_kept image d timestamp now s Hd)
    as (r & s' & Hrun & _ & Hsub & Hkeep).
  fold imgs in Hsub, Hkeep. exists r, s'.
  split; [exact Hrun|]. split; [exact Hsub|]. split; [exact Hkeep|].
  apply submseteq_length in Hsub, Hkeep.
  rewrite length_drop in Hkeep.
  rewrite (Permutation_length (list_sort_perm upload_time false imgs)) in Hkeep.
  lia.
Qed.

Lemma upload_image_keeps_latest_witness :
  ∃ r s',
    upload_image [] (Some "pi") "20240101_120000" 5 initial = (Returned r, s')
    ∧ images_of "pi" (st_image_metadata s') ⊆+ [new_record "pi" "20240101_120000" 5]
    ∧ (1 ≤ length (images_of "pi" (st_image_metadata s')) ≤ 1)%nat.
Proof.
  destruct (upload_image_keeps_latest [] "pi" "20240101_120000" 5 initial)
    as (r & s' & Hrun & Hsub & _ & Hlen);
    [reflexivity|apply plain_state_initial|reflexivity|].
  exists r, s'. split; [exact Hrun|]. split; [exact Hsub|exact Hlen].
Defined.

Section SortLast.
Context {A : Type} (key : A → Z).

Lemma sort_insert_snoc x l y :
  key x ≤ key y →
  sort_insert key false x (l ++ [y]) = sort_insert key false x l ++ [y].
Proof.
  intros Hxy. induction l as [|z l IH]; cbn [sort_insert app].
  - unfold goes_before. by rewrite (proj2 (Z.leb_le _ _) Hxy).
  - destruct (goes_before key false x z); [done|]. by rewrite IH.
Qed.

(** An element that is not older than any other and stands last stays last. *)
Lemma list_sort_snoc l y :
  (∀ x, x ∈ l → key x ≤ key y) →
  list_sort key false (l ++ [y]) = list_sort key false l ++ [y].
Proof.
  induction l as [|x l IH]; intros Hle; [done|].
  unfold list_sort in *. cbn [foldr app].
  rewrite IH by (intros z Hz; apply Hle; by right).
  assert (Hx := Hle x ltac:(by left)).
  apply sort_insert_snoc. exact Hx.
Qed.
End SortLast.

(** With a clock that did not go back, the new record is among the 20 kept
    and no record evicted is the new one. *)
Lemma upload_image_new_kept image d timestamp now s :
  d ≠ "" →
  (∀ img, img ∈ images_of d (st_image_metadata s) → upload_time img ≤ now) →
  let old := images_of d (st_image_metadata s) in
  ∃ r s',
    upload_image image (Some d) timestamp now s = (Returned r, s')
    ∧ s' = (for_each (take (length old - 19) (list_sort upload_time false old))
              evict (stored image d timestamp now s)).2
    ∧ new_record d timestamp now ∈ st_image_metadata s'
    ∧ images_of d (st_image_metadata s') ⊆+ old ++ [new_record d timestamp now].
Proof.
  intros Hd Hclock old.
  destruct (upload_image_kept image d timestamp now s Hd)
    as (r & s' & Hrun & Hs' & Hsub & Hkeep).
  fold old in Hs', Hsub, Hkeep.
  rewrite (list_sort_snoc upload_time old (new_record d timestamp now))
    in Hs', Hkeep by exact Hclock.
  rewrite length_app in Hs', Hkeep. cbn [length] in Hs', Hkeep.
  replace (length old + 1 - 20)%nat with (length old - 19)%nat in Hs', Hkeep by lia.
  assert (Hlen : (length old - 19 ≤ length (list_sort upload_time false old))%nat).
  { rewrite (Permutation_length (list_sort_perm upload_time false old)). lia. }
  rewrite take_app_le in Hs' by exact Hlen.
  rewrite drop_app_le in Hkeep by exact Hlen.
  exists r, s'. split; [exact Hrun|]. split; [exact Hs'|]. split; [|exact Hsub].
  assert (Hin : new_record d timestamp now ∈ images_of d (st_image_metadata s')).
  { eapply elem_of_submseteq; [|exact Hkeep]. apply elem_of_app. right. by left. }
  by apply images_of_elem_of in Hin as [_ ?].
Qed.

(** X7: the uploaded image can be read back.  When the clock did not go
    back behind a record of the device and no record of the device has the
    path of the new file, the upload returns, the new file holds the
    uploaded bytes and the new record is in the ledger (plain identifier,
    formatted timestamp, a state with a directory of plain files and a
    ledger filled by such uploads). *)
Theorem upload_image_stores_file image d timestamp now s :
  plain_id d = true →
  plain_state s →
  is_timestamp timestamp = true →
  (∀ img, img ∈ images_of d (st_image_metadata s) →
          upload_time img ≤ now ∧ file_path img ≠ blob_path d timestamp) →
  ∃ r s',
    upload_image image (Some d) timestamp now s = (Returned r, s')
    ∧ st_files s' !! blob_path d timestamp = Some image
    ∧ new_record d timestamp now ∈ st_image_metadata s'.
Proof.
  intros Hd%plain_id_nonempty _ _ Hold.
  destruct (upload_image_new_kept image d timestamp now s Hd)
    as (r & s' & Hrun & Hs' & Hnew & _).
  { intros img Himg. by apply Hold. }
  exists r, s'. split; [exact Hrun|]. split; [|exact Hnew].
  destruct (evict_loop_frame
              (take (length (images_of d (st_image_metadata s)) - 19)
                    (list_sort upload_time false (images_of d (st_image_metadata s))))
              (stored image d timestamp now s)) as (_ & Hfiles & _).
  cbv zeta in Hfiles. rewrite <-Hs' in Hfiles. rewrite Hfiles.
  - cbn [stored st_files]. apply lookup_insert_eq.
  - intros (img & Hpath & Hin)%list_elem_of_fmap.
    apply subseteq_take in Hin.
    rewrite (list_sort_perm upload_time false) in Hin.
    apply Hold in Hin as [_ Hne]. by apply Hne.
Qed.

Lemma upload_image_stores_file_witness :
  ∃ r s',
    upload_image [] (Some "cam-b") "20240101_120005" 12 one_other_image
    = (Returned r, s')
    ∧ st_files s' !! "uploads/cam-b-20240101_120005.png" = Some []
    ∧ new_record "cam-b" "20240101_120005" 12 ∈ st_image_metadata s'.
Proof.
  apply (upload_image_stores_file [] "cam-b" "20240101_120005" 12 one_other_image).
  - reflexivity.
  - apply plain_state_one_other_image.
  - reflexivity.
  - intros img Himg. vm_compute in Himg.
    apply list_elem_of_singleton in Himg as ->. split; [vm_compute|]; discriminate.
Defined.

Lemma get_latest_image_run d s x rest :
  images_of d (st_image_metadata s) = x :: rest →
  get_latest_image d s = (Returned (image_info (max_by upload_time x rest)), s).
Proof. intros Himgs. unfold get_latest_image. by rewrite run_gets, Himgs. Qed.

(** X8: an upload followed by [get_latest_image] for the same device.  When
    the new [upload_time] is later than that of every record of the device,
    the latest image reported is the one just uploaded (plain identifier,
    formatted timestamp, a state with a directory of plain files and a
    ledger filled by such uploads). *)
Theorem upload_then_latest image d timestamp now s :
  plain_id d = true →
  plain_state s →
  is_timestamp timestamp = true →
  (∀ img, img ∈ images_of d (st_image_metadata s) → upload_time img < now) →
  ∃ s',
    (upload_image image (Some d) timestamp now ;; get_latest_image d) s
    = (Returned (mkImageInfo (image_filename d timestamp) now
                             ("/static/" +:+ image_filename d timestamp)), s').
Proof.
  intros Hd%plain_id_nonempty _ _ Hclock.
  destruct (upload_image_new_kept image d timestamp now s Hd)
    as (r & s' & Hrun & _ & Hnew & Hsub).
  { intros img Himg. apply Hclock in Himg. lia. }
  exists s'. rewrite run_bind, Hrun.
  assert (Hin : new_record d timestamp now ∈ images_of d (st_image_metadata s'))
    by by apply images_of_elem_of.
  destruct (images_of d (st_image_metadata s')) as [|x rest] eqn:Himgs;
    [by apply elem_of_nil in Hin|].
  rewrite (get_latest_image_run d s' x rest Himgs). do 2 f_equal.
  pose proof (max_by_elem_of upload_time x rest) as Hmax.
  pose proof (max_by_ge upload_time x rest _ Hin) as Hge.
  eapply elem_of_submseteq in Hmax; [|exact Hsub].
  apply elem_of_app in Hmax as [Hold|Hmax].
  - apply Hclock in Hold. cbn [upload_time new_record] in Hge. lia.
  - apply list_elem_of_singleton in Hmax. by rewrite Hmax.
Qed.

Lemma upload_then_latest_witness :
  ∃ s',
    (upload_image [] (Some "cam-b") "20240101_120005" 12 ;; get_latest_image "cam-b")
      one_other_image
    = (Returned (mkImageInfo "cam-b-20240101_120005.png" 12
                             "/static/cam-b-20240101_120005.png"), s').
Proof.
  apply (upload_then_latest [] "cam-b" "20240101_120005" 12 one_other_image).
  - reflexivity.
  - apply plain_state_one_other_image.
  - reflexivity.
  - intros img Himg. vm_compute in Himg.
    apply list_elem_of_singleton in Himg as ->. reflexivity.
Defined.

(** ** The ledger: listing and latest image agree *)

Section SortHead.
Context {A : Type} (key : A → Z).

Lemma max_by_carry a b l :
  max_by key (if key a <? key b then b else a) l
  = (if key (max_by key b l) <=? key a then a else max_by key b l).
Proof.
  revert a b. induction l as [|c l IH]; intros a b; cbn [max_by].
  - destruct (Z.ltb_spec (key a) (key b)), (Z.leb_spec (key b) (key a));
      try done; lia.
  - destruct (Z.ltb_spec (key a) (key b)) as [Hab|Hab].
    + pose proof (max_by_ge key (if key b <? key c then c else b) l
                    (if key b <? key c then c else b) ltac:(by left)) as Hge.
      destruct (Z.leb_spec (key (max_by key (if key b <? key c then c else b) l))
                           (key a)) as [Hle|]; [|done].
      destruct (Z.ltb_spec (key b) (key c)); lia.
    + rewrite (IH a c), (IH b c).
      destruct (Z.leb_spec (key (max_by key c l)) (key b)) as [Hcb|Hcb].
      * destruct (Z.leb_spec (key (max_by key c l)) (key a)),
                 (Z.leb_spec (key b) (key a)); try done; lia.
      * done.
Qed.

(** The first element of the descending stable sort is the element that
    [max] returns. *)
Lemma head_list_sort_desc x l :
  head (list_sort key true (x :: l)) = Some (max_by key x l).
Proof.
  revert x. induction l as [|y l IH]; intros x; [done|].
  change (list_sort key true (x :: y :: l))
    with (sort_insert key true x (list_sort key true (y :: l))).
  specialize (IH y).
  destruct (list_sort key true (y :: l)) as [|m rest]; [done|].
  injection IH as ->. cbn [sort_insert max_by]. rewrite max_by_carry.
  unfold goes_before. by destruct (key (max_by key y l) <=? key x).
Qed.
End SortHead.

Lemma get_device_images_run d limit s :
  get_device_images d limit s
  = (Returned (image_info <$> slice_to limit
                 (list_sort upload_time true (images_of d (st_image_metadata s)))),
     s).
Proof.
  unfold get_device_images. rewrite run_gets.
  by rewrite foldl_append_fmap.
Qed.

(** X9: the two queries agree.  For a device with at least one record and a
    limit of at least 1, the first entry that [get_device_images] lists is
    the entry that [get_latest_image] returns, also among records of equal
    [upload_time]. *)
Theorem latest_is_first_listed d limit s :
  1 ≤ limit →
  images_of d (st_image_metadata s) ≠ [] →
  ∃ info rest,
    get_device_images d limit s = (Returned (info :: rest), s)
    ∧ get_latest_image d s = (Returned info, s).
Proof.
  intros Hlimit Hsome.
  destruct (images_of d (st_image_metadata s)) as [|x l] eqn:Himgs; [done|].
  rewrite get_device_images_run, Himgs, (get_latest_image_run d s x l Himgs).
  pose proof (head_list_sort_desc upload_time x l) as Hhead.
  destruct (list_sort upload_time true (x :: l)) as [|m sorted]; [done|].
  injection Hhead as ->. unfold slice_to.
  destruct (Z.ltb_spec limit 0); [lia|].
  destruct (Z.to_nat limit) as [|n] eqn:Hn; [lia|].
  cbn [take fmap list_fmap]. by eexists _, _.
Qed.

Lemma latest_is_first_listed_witness :
  ∃ info rest,
    get_device_images "cam-a" 20 three_images = (Returned (info :: rest), three_images)
    ∧ get_latest_image "cam-a" three_images = (Returned info, three_images).
Proof.
  apply latest_is_first_listed; [lia|]. vm_compute. discriminate.
Defined.

(** X10: [get_device_images] with a limit that is not negative returns
    [min limit n] of the [n] records of the device, the most recent ones,
    most recent first: the entries returned followed by the records left out
    are the records of the device in descending [upload_time] order. *)
Theorem get_device_images_limit d limit s :
  0 ≤ limit →
  ∃ kept dropped,
    get_device_images d limit s = (Returned (image_info <$> kept), s)
    ∧ kept ++ dropped ≡ₚ images_of d (st_image_metadata s)
    ∧ StronglySorted (λ x y, upload_time y ≤ upload_time x) (kept ++ dropped)
    ∧ length kept
      = (Z.to_nat limit `min` length (images_of d (st_image_metadata s)))%nat.
Proof.
  intros Hlimit.
  set (sorted := list_sort upload_time true (images_of d (st_image_metadata s))).
  exists (take (Z.to_nat limit) sorted), (drop (Z.to_nat limit) sorted).
  rewrite take_drop. split; [|split; [|split]].
  - rewrite get_device_images_run. fold sorted. unfold slice_to.
    by destruct (Z.ltb_spec limit 0); [lia|].
  - apply list_sort_perm.
  - exact (list_sort_sorted upload_time true _).
  - rewrite length_take. unfold sorted.
    by rewrite (Permutation_length (list_sort_perm upload_time true _)).
Qed.

Lemma get_device_images_limit_witness :
  ∃ kept dropped,
    get_device_images "cam-a" 2 three_images
    = (Returned (image_info <$> kept), three_images)
    ∧ kept ++ dropped ≡ₚ images_of "cam-a" (st_image_metadata three_images)
    ∧ length kept = 2%nat.
Proof.
  destruct (get_device_images_limit "cam-a" 2 three_images)
    as (kept & dropped & Hrun & Hperm & _ & Hlen); [lia|].
  exists kept, dropped. split; [exact Hrun|]. split; [exact Hperm|].
  rewrite Hlen. reflexivity.
Defined.

(** ** Orphan reconciliation: what is left, what is kept, what is counted *)

(** X11: when the upload directory holds plain files only, no orphan of
    [d] is left after a reconciliation for [d]: every file of the upload
    directory whose name starts with [d-] is the file of a ledger record of
    [d] (by file name). *)
Theorem cleanup_orphaned_postcondition d s name :
  plain_directory s →
  let s' := (cleanup_orphaned d s).2 in
  no_separator name →
  startswith name (d +:+ "-") = true →
  is_Some (st_files s' !! upload_path name) →
  name ∈ filename <$> images_of d (st_image_metadata s).
Proof.
  intros _.
  destruct (cleanup_orphaned_run d s) as (r & Hrun & _). cbv zeta in *.
  rewrite Hrun. cbn [snd set_files st_files]. intros Hsep Hscope Hfile.
  rewrite lookup_delete_all in Hfile. case_decide as Hdel; [by destruct Hfile|].
  destruct (decide (name ∈ filename <$> images_of d (st_image_metadata s)))
    as [|Hmeta]; [done|].
  exfalso. apply Hdel. unfold orphan_paths. apply list_elem_of_fmap_2.
  apply list_elem_of_filter. split; [exact Hscope|].
  apply elem_of_elements, elem_of_difference. split.
  - by apply elem_of_list_to_set, elem_of_listdir.
  - by rewrite elem_of_list_to_set.
Qed.

Lemma cleanup_orphaned_postcondition_witness :
  "cam-b-20240101_120004.png"
  ∈ filename <$> images_of "cam-b" (st_image_metadata one_orphan).
Proof.
  apply (cleanup_orphaned_postcondition "cam-b" one_orphan
           "cam-b-20240101_120004.png").
  - apply plain_directory_one_orphan.
  - reflexivity.
  - reflexivity.
  - vm_compute. by eexists.
Defined.

(** X12: a reconciliation for [d] changes neither the registry nor the
    ledger, and it leaves the file of every ledger record of [d] (the file
    of the upload directory with the record's file name) as it is. *)
Theorem cleanup_orphaned_keeps_recorded d s img :
  img ∈ st_image_metadata s →
  device_id img = d →
  let s' := (cleanup_orphaned d s).2 in
  st_device_status s' = st_device_status s
  ∧ st_image_metadata s' = st_image_metadata s
  ∧ st_files s' !! upload_path (filename img)
    = st_files s !! upload_path (filename img).
Proof.
  intros Hin Hd.
  destruct (cleanup_orphaned_scope d s (upload_path (filename img)))
    as (Hreg & Hmd & Hfile).
  cbv zeta in *. split; [exact Hreg|]. split; [exact Hmd|].
  destruct Hfile as [Hsame|(_ & name & Hname & _ & Hmeta)]; [exact Hsame|].
  exfalso. apply Hmeta. apply String.app_inj in Hname as <-.
  apply list_elem_of_fmap_2. by apply images_of_elem_of.
Qed.

Lemma cleanup_orphaned_keeps_recorded_witness :
  st_files (cleanup_orphaned "cam-b" one_orphan).2
    !! "uploads/cam-b-20240101_120004.png"
  = Some [].
Proof.
  destruct (cleanup_orphaned_keeps_recorded "cam-b" one_orphan
              (new_record "cam-b" "20240101_120004" 11))
    as (_ & _ & Hfile); [by left|reflexivity|].
  exact Hfile.
Defined.

Lemma size_delete_all {V} ps : ∀ m : gmap string V,
  NoDup ps → (∀ p, p ∈ ps → is_Some (m !! p)) →
  (size (delete_all ps m) + length ps = size m)%nat.
Proof.
  induction ps as [|p ps IH]; intros m Hnd Hin; [cbn; lia|].
  apply NoDup_cons in Hnd as [Hp Hnd].
  unfold delete_all in *. cbn [foldl length]. rewrite Nat.add_succ_r.
  rewrite IH; [|done|].
  - destruct (Hin p) as [v Hv]; [by left|].
    rewrite map_size_delete, Hv.
    assert (size m ≠ 0%nat); [|lia].
    apply map_size_non_empty_iff. intros ->. by rewrite lookup_empty in Hv.
  - intros q Hq. rewrite lookup_delete_ne by (intros ->; done).
    apply Hin. by right.
Qed.

Lemma fold_remove_orphan_count d names : ∀ acc s,
  NoDup names →
  Forall no_separator names →
  (∀ name, name ∈ names → is_Some (st_files s !! upload_path name)) →
  fold_each names acc (remove_orphan d) s
  = (Returned (acc + Z.of_nat (length (orphan_paths d names))),
     set_files (delete_all (orphan_paths d names)) s).
Proof.
  induction names as [|name names IH]; intros acc s Hnd Hsep Hfiles.
  { cbn [fold_each]. rewrite run_mret. destruct s. unfold set_files. cbn.
    do 2 f_equal. lia. }
  apply NoDup_cons in Hnd as [Hname Hnd].
  apply Forall_cons in Hsep as [Hsepn Hsep].
  cbn [fold_each]. rewrite run_bind, remove_orphan_run by done.
  unfold orphan_paths.
  destruct (decide (in_scope d name)) as [Hscope|Hscope].
  - rewrite filter_cons_True by done.
    destruct (Hfiles name) as [c ->]; [by left|].
    fold (orphan_paths d names). rewrite IH; [|done|done|].
    + rewrite fmap_cons. cbn [length]. destruct s. unfold set_files.
      cbn [st_device_status st_image_metadata st_files].
      replace (acc + 1 + Z.of_nat (length (orphan_paths d names)))
        with (acc + Z.of_nat (S (length (upload_path <$> filter (in_scope d) names))))
        by (unfold orphan_paths; lia).
      reflexivity.
    + intros name' Hin. cbn [set_files st_files].
      rewrite lookup_delete_ne.
      * apply Hfiles. by right.
      * intros Heq. apply String.app_inj in Heq as ->. done.
  - rewrite filter_cons_False by done. apply IH; [done|done|].
    intros name' Hin. apply Hfiles. by right.
Qed.

(** X13: when the upload directory holds plain files only, reconciliation
    returns and its [removed_count] is the number of files it deleted: the
    directory shrinks by exactly that many files; the message renders the
    same number. *)
Theorem cleanup_orphaned_count d s :
  plain_directory s →
  ∃ r s',
    cleanup_orphaned d s = (Returned r, s')
    ∧ removed_count r
      = Z.of_nat (size (st_files s)) - Z.of_nat (size (st_files s'))
    ∧ 0 ≤ removed_count r
    ∧ cl_message r
      = "Cleaned up " +:+ pretty (removed_count r) +:+ " orphaned files".
Proof.
  intros _.
  set (names := elements
    ((list_to_set (omap (dir_entry UPLOAD_DIR) (elements (dom (st_files s))))
        : gset string)
     ∖ list_to_set (filename <$> images_of d (st_image_metadata s)))).
  assert (Hlisted : ∀ name, name ∈ names →
            no_separator name ∧ is_Some (st_files s !! upload_path name)).
  { intros name Hin.
    apply elem_of_elements, elem_of_difference in Hin as [Hin _].
    by apply elem_of_list_to_set, elem_of_listdir in Hin. }
  assert (Hrun := fold_remove_orphan_count d names 0 s).
  rewrite Z.add_0_l in Hrun.
  eexists _, _. unfold cleanup_orphaned, os_listdir. rewrite !run_gets.
  fold names. rewrite run_bind, Hrun; cycle 1.
  { apply NoDup_elements. }
  { apply Forall_forall. intros name Hin. by apply Hlisted. }
  { intros name Hin. by apply Hlisted. }
  split; [reflexivity|]. cbn [removed_count cl_message set_files st_files].
  split; [|split; [lia|done]].
  pose proof (size_delete_all (orphan_paths d names) (st_files s)) as Hsize.
  rewrite <-Hsize; [lia|..].
  - unfold orphan_paths. apply NoDup_fmap_2; [apply String.app_inj|].
    apply NoDup_filter, NoDup_elements.
  - intros p (name & -> & [_ Hin]%list_elem_of_filter)%list_elem_of_fmap.
    by apply Hlisted.
Qed.

Lemma cleanup_orphaned_count_witness :
  ∃ r s',
    cleanup_orphaned "cam-b" one_orphan = (Returned r, s')
    ∧ removed_count r = 1
    ∧ cl_message r = "Cleaned up 1 orphaned files".
Proof.
  destruct (cleanup_orphaned_count "cam-b" one_orphan plain_directory_one_orphan)
    as (r & s' & Hrun & Hcount & _ & Hmsg).
  exists r, s'. split; [exact Hrun|].
  assert (Hs' : s' = (cleanup_orphaned "cam-b" one_orphan).2) by by rewrite Hrun.
  assert (Hone : removed_count r = 1) by (rewrite Hcount, Hs'; reflexivity).
  split; [exact Hone|]. rewrite Hmsg, Hone. reflexivity.
Defined.

(** ** Orphan reconciliation: which other devices are safe *)

Lemma prefix_dash_contains a r :
  String.prefix (a +:+ "-") r = true → contains_char "-" r = true.
Proof.
  revert r. induction a as [|x a IH]; intros [|c r]; try done.
  - rewrite string_app_nil_l. cbn [String.prefix contains_char].
    destruct (ascii_dec "-" c) as [<-|]; [|done]. by rewrite decide_True.
  - rewrite string_app_cons. cbn [String.prefix contains_char].
    destruct (ascii_dec x c) as [<-|]; [|done]. intros Hpre%IH.
    by destruct (decide (x = "-"%char)).
Qed.

Lemma prefix_dash_split a b r :
  String.prefix (a +:+ "-") (b +:+ "-" +:+ r) = true →
  contains_char "-" r = false →
  a = b ∨ String.prefix (a +:+ "-") b = true.
Proof.
  intros Hpre Hr. revert b Hpre. induction a as [|x a IH]; intros [|c b] Hpre.
  - by left.
  - right. rewrite string_app_nil_l, string_app_cons in *.
    cbn [String.prefix] in *.
    destruct (ascii_dec "-" c); [by destruct b|done].
  - exfalso. rewrite string_app_nil_l, !string_app_cons, string_app_nil_l in Hpre.
    cbn [String.prefix] in Hpre. destruct (ascii_dec x "-"); [|done].
    apply prefix_dash_contains in Hpre. congruence.
  - rewrite !string_app_cons in Hpre. cbn [String.prefix] in Hpre.
    destruct (ascii_dec x c) as [<-|]; [|done].
    destruct (IH b Hpre) as [->|Hb]; [by left|right].
    rewrite string_app_cons. cbn [String.prefix].
    by destruct (ascii_dec x x).
Qed.

Lemma contains_char_app c a b :
  contains_char c (a +:+ b) = contains_char c a || contains_char c b.
Proof.
  induction a as [|x a IH]; [done|].
  rewrite string_app_cons. cbn [contains_char]. by destruct (decide (x = c)).
Qed.

Lemma all_digits_no_dash s : all_digits s = true → contains_char "-" s = false.
Proof.
  induction s as [|c s IH]; [done|]. cbn [all_digits contains_char].
  intros [Hc Hs]%andb_true_iff. rewrite IH by done.
  destruct (decide (c = "-"%char)) as [->|]; [done|done].
Qed.

Lemma substring_split n s :
  (n ≤ String.length s)%nat →
  s = String.substring 0 n s
      +:+ String.substring n (String.length s - n) s.
Proof.
  revert s. induction n as [|n IH]; intros s Hn.
  - rewrite Nat.sub_0_r. destruct s as [|c s]; [done|].
    cbn [String.substring String.length]. rewrite string_app_nil_l. f_equal.
    clear. induction s as [|c' s IH]; [done|].
    cbn [String.substring String.length]. by rewrite <-IH.
  - destruct s as [|c s]; cbn [String.length] in *; [lia|].
    cbn [String.substring Nat.sub]. rewrite string_app_cons. f_equal.
    apply IH. lia.
Qed.

(** No formatted clock reading contains a dash. *)
Lemma is_timestamp_no_dash ts :
  is_timestamp ts = true → contains_char "-" ts = false.
Proof.
  unfold is_timestamp. rewrite !andb_true_iff.
  intros [[[Hlen Hdate] Hsep] Htime]. apply bool_decide_eq_true in Hlen, Hsep.
  rewrite (substring_split 8 ts) by lia. rewrite contains_char_app.
  rewrite (all_digits_no_dash _ Hdate), orb_false_l, Hlen.
  assert (Hrest : String.substring 8 (15 - 8) ts
                  = String "_" (String.substring 9 6 ts)).
  { clear -Hlen Hsep.
    do 8 (destruct ts as [|? ts]; [done|]).
    destruct ts as [|c ts]; [done|]. cbn in Hsep. injection Hsep as ->.
    reflexivity. }
  rewrite Hrest. cbn [contains_char]. rewrite decide_False by done.
  by apply all_digits_no_dash.
Qed.

(** X14: which devices a reconciliation for [d] cannot hurt.  In an upload
    directory of plain files, a file stored under a name generated for
    another device [d'], a plain identifier, is left as it is, provided
    [d'] does not itself start with [d-]. *)
Theorem cleanup_orphaned_other_device_safe d d' ts s :
  plain_directory s →
  plain_id d' = true →
  d' ≠ d →
  startswith d' (d +:+ "-") = false →
  is_timestamp ts = true →
  st_files (cleanup_orphaned d s).2 !! blob_path d' ts
  = st_files s !! blob_path d' ts.
Proof.
  intros _ _ Hne Hstart Hts.
  destruct (cleanup_orphaned_scope d s (blob_path d' ts)) as (_ & _ & Hfile).
  cbv zeta in Hfile.
  destruct Hfile as [Hsame|(_ & name & Hname & Hscope & _)]; [exact Hsame|].
  exfalso. unfold blob_path in Hname.
  destruct (startswith (image_filename d' ts) "/") eqn:Habs.
  - rewrite os_path_join_absolute in Hname by done.
    apply startswith_separator_inv in Habs as [rest Hrest].
    rewrite Hrest in Hname. done.
  - rewrite os_path_join_upload in Hname by done.
    apply String.app_inj in Hname as <-.
    unfold in_scope, startswith, image_filename in Hscope.
    apply prefix_dash_split in Hscope as [->|Hpre].
    + done.
    + unfold startswith in Hstart. congruence.
    + rewrite contains_char_app, (is_timestamp_no_dash ts Hts). reflexivity.
Qed.

Lemma cleanup_orphaned_other_device_safe_witness :
  st_files (cleanup_orphaned "pi-2" two_cameras).2
    !! "uploads/pi-20240101_120000.png"
  = Some [].
Proof.
  etrans.
  - apply (cleanup_orphaned_other_device_safe "pi-2" "pi" "20240101_120000"
             two_cameras); [|reflexivity|discriminate|reflexivity|reflexivity].
    unfold plain_directory. apply (bool_decide_unpack _). by vm_compute.
  - reflexivity.
Defined.

(** ** Uploads: the cap over a sequence with distinct file names *)

Lemma blob_path_inj_timestamp d ts ts' :
  blob_path d ts = blob_path d ts' → ts = ts'.
Proof.
  intros Heq%os_path_join_inj. unfold image_filename in Heq.
  apply String.app_inj in Heq. rewrite !string_app_cons, !string_app_nil_l in Heq.
  injection Heq as Heq. by apply string_app_inj_length in Heq as [? _].
Qed.

(** When every record to evict has its own file on disk, the loop evicts
    them all. *)
Lemma evict_loop_partition d l : ∀ s,
  Forall (λ x, device_id x = d) l →
  NoDup (file_path <$> l) →
  l ⊆+ st_image_metadata s →
  (∀ x, x ∈ l → is_Some (st_files s !! file_path x)) →
  ∃ s', for_each l evict s = (Returned tt, s')
        ∧ l ++ images_of d (st_image_metadata s')
          ≡ₚ images_of d (st_image_metadata s)
        ∧ st_files s' = delete_all (file_path <$> l) (st_files s).
Proof.
  induction l as [|x l IH]; intros s Hdev Hnd Hsub Hfiles; [by exists s|].
  apply Forall_cons in Hdev as [Hx Hdev].
  rewrite fmap_cons in Hnd. apply NoDup_cons in Hnd as [Hpath Hnd].
  apply submseteq_cons_l in Hsub as (k' & Hperm & Hsub).
  cbn [for_each]. rewrite run_bind, evict_run.
  destruct (Hfiles x) as [c ->]; [by left|].
  destruct (list_remove_is_Some x (st_image_metadata s)) as [md' Hrm].
  { rewrite Hperm. by left. }
  rewrite Hrm.
  pose proof (list_remove_filter (λ img, device_id img = d) _ _ _ Hrm) as Hf.
  rewrite decide_True in Hf by done. apply list_remove_Some_perm in Hf.
  destruct (IH (mkState (st_device_status s) md'
                        (delete (file_path x) (st_files s))))
    as (s' & Hrun & Hpart & Hfs); [done|done|..].
  - cbn [st_image_metadata]. apply list_remove_Some_perm in Hrm.
    rewrite Hperm in Hrm. apply Permutation_cons_inv in Hrm. by rewrite <-Hrm.
  - intros y Hy. cbn [st_files]. rewrite lookup_delete_ne.
    + apply Hfiles. by right.
    + intros Heq. apply Hpath. rewrite Heq. by apply list_elem_of_fmap_2.
  - exists s'. split; [exact Hrun|]. split; [|exact Hfs].
    cbn [st_image_metadata] in Hpart. unfold images_of in *.
    rewrite <-app_comm_cons, Hpart. by rewrite Hf.
Qed.

Lemma upload_own_files image d ts now used s :
  d ≠ "" → own_files d used s → ts ∉ used →
  ∃ r s',
    upload_image image (Some d) ts now s = (Returned r, s')
    ∧ own_files d (ts :: used) s'
    ∧ length (images_of d (st_image_metadata s'))
      = (20 `min` S (length (images_of d (st_image_metadata s))))%nat.
Proof.
  intros Hd (Hpres & Hnd & Hused) Hts.
  rewrite upload_image_run by done. cbv zeta.
  set (s1 := stored image d ts now s).
  set (old := images_of d (st_image_metadata s)) in *.
  assert (Himgs : images_of d (st_image_metadata s1) = old ++ [new_record d ts now])
    by apply images_of_stored.
  assert (Hnd1 : NoDup (file_path <$> images_of d (st_image_metadata s1))).
  { rewrite Himgs, fmap_app. apply NoDup_app. split; [done|]. split.
    - intros p Hp ->%list_elem_of_singleton.
      apply list_elem_of_fmap in Hp as (img & Hpath & Hin).
      destruct (Hused img Hin) as (ts0 & Hts0 & Hpath0).
      cbn [file_path new_record] in Hpath. rewrite Hpath0 in Hpath.
      apply blob_path_inj_timestamp in Hpath as ->. done.
    - apply NoDup_singleton. }
  assert (Hpres1 : blobs_present d s1) by by apply blobs_present_stored.
  rewrite to_evict_take.
  set (l := take (length (images_of d (st_image_metadata s1)) - 20)
                 (list_sort upload_time false (images_of d (st_image_metadata s1)))).
  assert (Hl : ∀ x, x ∈ l → x ∈ images_of d (st_image_metadata s1)).
  { intros x Hx. apply subseteq_take in Hx.
    by rewrite (list_sort_perm upload_time false) in Hx. }
  destruct (evict_loop_partition d l s1) as (s' & -> & Hpart & Hfs).
  { apply Forall_forall. intros x Hx%Hl. by apply images_of_elem_of in Hx as [? _]. }
  { unfold l. rewrite fmap_take. eapply sublist_NoDup; [|apply sublist_take].
    by rewrite (list_sort_perm upload_time false). }
  { etrans; [apply submseteq_take|].
    rewrite (list_sort_perm upload_time false).
    apply sublist_submseteq, sublist_filter. }
  { intros x Hx%Hl. by apply Hpres1. }
  eexists _, s'. split; [reflexivity|].
  assert (Hparts : NoDup (file_path <$> l ++ images_of d (st_image_metadata s'))).
  { by rewrite Hpart. }
  rewrite fmap_app in Hparts. apply NoDup_app in Hparts as (_ & Hdisj & Hnd').
  assert (Hin' : ∀ img, img ∈ images_of d (st_image_metadata s') →
                        img ∈ images_of d (st_image_metadata s1)).
  { intros img Hin. rewrite <-Hpart. apply elem_of_app. by right. }
  split; [split; [|split]|].
  - intros img Hin. rewrite Hfs, lookup_delete_all.
    rewrite decide_False; [by apply Hpres1, Hin'|].
    intros Hp. apply (Hdisj _ Hp). by apply list_elem_of_fmap_2.
  - exact Hnd'.
  - intros img Hin%Hin'. rewrite Himgs in Hin.
    apply elem_of_app in Hin as [Hin| ->%list_elem_of_singleton].
    + destruct (Hused img Hin) as (ts0 & Hts0 & Hpath0).
      exists ts0. split; [by right|done].
    + exists ts. split; [by left|done].
  - apply Permutation_length in Hpart. rewrite length_app in Hpart.
    assert (Hlen : length l
                   = (length (images_of d (st_image_metadata s1)) - 20)%nat).
    { unfold l. rewrite length_take.
      rewrite (Permutation_length (list_sort_perm upload_time false _)). lia. }
    rewrite Himgs, length_app in Hlen, Hpart. cbn [length] in Hlen, Hpart. lia.
Qed.

Lemma uploads_own_files d reqs : ∀ used s,
  d ≠ "" → own_files d used s →
  (length (images_of d (st_image_metadata s)) ≤ 20)%nat →
  NoDup (rq_timestamp <$> reqs) →
  (∀ ts, ts ∈ rq_timestamp <$> reqs → ts ∉ used) →
  ∃ s',
    uploads d reqs s = (Returned tt, s')
    ∧ blobs_present d s'
    ∧ length (images_of d (st_image_metadata s'))
      = (20 `min` (length (images_of d (st_image_metadata s)) + length reqs))%nat.
Proof.
  induction reqs as [|rq reqs IH]; intros used s Hd Hown Hcap Hnd Hfresh.
  - exists s. split; [done|]. split; [by destruct Hown|]. cbn [length]. lia.
  - rewrite fmap_cons in Hnd, Hfresh. apply NoDup_cons in Hnd as [Hrq Hnd].
    destruct (upload_own_files (rq_image rq) d (rq_timestamp rq) (rq_now rq)
                used s Hd Hown) as (r & s1 & Hrun & Hown1 & Hlen1).
    { apply Hfresh. by left. }
    destruct (IH (rq_timestamp rq :: used) s1 Hd Hown1)
      as (s' & Hruns & Hpres & Hlen); [lia|done|..].
    { intros ts Hts [->|Hin]%elem_of_cons; [done|].
      apply (Hfresh ts); [by right|done]. }
    exists s'. split; [|split; [exact Hpres|]].
    + unfold uploads in *. cbn [for_each]. rewrite !run_bind, Hrun.
      run_returns. exact Hruns.
    + rewrite Hlen, Hlen1. cbn [length]. lia.
Qed.

(** X15: the cap over a whole sequence.  A device without records, its
    identifier a plain file-name component, posts any number of images into
    an upload directory of plain files, one after the other, with formatted
    and pairwise distinct file-name timestamps.  Every upload succeeds, and
    afterwards the device has [min 20 n] records for [n] uploads, each with
    its file on disk. *)
Theorem uploads_cap_distinct_timestamps d reqs s :
  plain_id d = true →
  plain_directory s →
  Forall (λ rq, is_timestamp (rq_timestamp rq) = true) reqs →
  images_of d (st_image_metadata s) = [] →
  NoDup (rq_timestamp <$> reqs) →
  ∃ s',
    uploads d reqs s = (Returned tt, s')
    ∧ length (images_of d (st_image_metadata s')) = (20 `min` length reqs)%nat
    ∧ blobs_present d s'.
Proof.
  intros Hd%plain_id_nonempty _ _ Hnone Hnd.
  destruct (uploads_own_files d reqs [] s Hd) as (s' & Hrun & Hpres & Hlen).
  - unfold own_files, blobs_present. rewrite Hnone. cbn [fmap list_fmap].
    split; [|split; [constructor|]]; by intros img ?%elem_of_nil.
  - rewrite Hnone. cbn [length]. lia.
  - exact Hnd.
  - by intros ts _ ?%elem_of_nil.
  - exists s'. split; [exact Hrun|]. split; [|exact Hpres].
    by rewrite Hlen, Hnone.
Qed.

Lemma uploads_cap_distinct_timestamps_witness :
  ∃ s',
    uploads "pi" (request_at 0 :: every_second) initial = (Returned tt, s')
    ∧ length (images_of "pi" (st_image_metadata s')) = 20%nat
    ∧ blobs_present "pi" s'.
Proof.
  apply (uploads_cap_distinct_timestamps "pi" (request_at 0 :: every_second) initial).
  - reflexivity.
  - apply plain_directory_initial.
  - vm_compute. repeat constructor.
  - reflexivity.
  - apply (bool_decide_unpack _). by vm_compute.
Defined.

Lemma upload_image_cap_witness :
  ∃ r s',
    upload_image [] (Some "pi") (clock_stamp 21000000) 21000000
      (uploads "pi" (request_at 0 :: every_second) initial).2
    = (Returned r, s')
    ∧ (length (images_of "pi" (st_image_metadata s')) ≤ 20)%nat.
Proof.
  apply upload_image_cap.
  - reflexivity.
  - unfold plain_directory. apply (bool_decide_unpack _). by vm_compute.
  - reflexivity.
  - apply (bool_decide_unpack _). by vm_compute.
  - intros img Himg. vm_compute in Himg.
    repeat (apply elem_of_cons in Himg as [->|Himg]; [by vm_compute; eexists|]).
    by apply elem_of_nil in Himg.
Defined.

(** ** The ledger over the life of the process *)

Lemma step_ledger_invariant s s' :
  step s s' →
  Forall (λ img, device_id img ≠ "" ∧ generated img) (st_image_metadata s) →
  Forall (λ img, device_id img ≠ "" ∧ generated img) (st_image_metadata s').
Proof.
  intros Hstep Hinv. destruct Hstep as
    [s|now s|d st now s|now s|image dev ts now s Hts|d limit s|d s|d s|now s];
    try done.
  - by destruct (get_devices_run now s) as (reg' & -> & _).
  - destruct (decide (dev = None ∨ dev = Some "")) as [Hrej|Hok].
    { by rewrite upload_image_rejected. }
    destruct dev as [d|]; [|by destruct Hok; left].
    assert (Hd : d ≠ "") by (intros ->; apply Hok; by right).
    rewrite upload_image_run by done. cbv zeta.
    set (s1 := stored image d ts now s).
    destruct (evict_loop_frame (to_evict d (st_image_metadata s1)) s1)
      as (_ & _ & _ & Hsub).
    assert (Hinv1 : Forall (λ img, device_id img ≠ "" ∧ generated img)
                           (st_image_metadata s1)).
    { apply Forall_app. split; [done|]. apply Forall_singleton.
      split; [done|]. by apply new_record_generated. }
    assert (Hres : Forall (λ img, device_id img ≠ "" ∧ generated img)
              (st_image_metadata
                 (for_each (to_evict d (st_image_metadata s1)) evict s1).2)).
    { apply Forall_forall. intros x Hx. apply Hsub in Hx.
      by eapply Forall_forall in Hinv1. }
    by destruct (for_each _ evict s1) as [[[]|e] s'].
  - unfold get_latest_image. rewrite run_gets.
    by destruct (images_of d (st_image_metadata s)).
  - destruct (cleanup_orphaned_scope d s "") as (_ & Hmd & _). cbv zeta in Hmd.
    by rewrite Hmd.
Qed.

(** X16: an invariant of the ledger.  In every state that the process
    reaches from a start with an empty ledger, whatever requests it serves,
    every record has a device identifier that is not empty, the file name
    [device_id-timestamp.png] for a formatted timestamp, and the path
    [os.path.join("uploads", filename)]. *)
Theorem ledger_invariant s0 s :
  st_image_metadata s0 = [] →
  rtc step s0 s →
  Forall (λ img, device_id img ≠ "" ∧ generated img) (st_image_metadata s).
Proof.
  intros Hstart Hreach.
  assert (Hinv : Forall (λ img, device_id img ≠ "" ∧ generated img)
                        (st_image_metadata s0)) by by rewrite Hstart.
  clear Hstart. induction Hreach as [s|s s1 s2 Hstep _ IH]; [done|].
  by apply IH, (step_ledger_invariant s s1).
Qed.

Lemma ledger_invariant_witness :
  Forall (λ img, device_id img ≠ "" ∧ generated img)
         (st_image_metadata
            (upload_image [] (Some "pi") "20240101_120000" 5
               (heartbeat "pi" "online" 4 initial).2).2).
Proof.
  apply (ledger_invariant initial); [reflexivity|].
  eapply rtc_l; [apply (step_heartbeat "pi" "online" 4)|].
  eapply rtc_l;
    [apply (step_upload_image [] (Some "pi") "20240101_120000" 5); reflexivity|].
  apply rtc_refl.
Defined.

(** ** Heartbeats as the status sees them *)

Lemma size_delete_Z {V} (m : gmap string V) k :
  Z.of_nat (size (delete k m))
  = Z.of_nat (size m) - (match m !! k with Some _ => 1 | None => 0 end).
Proof.
  rewrite map_size_delete. destruct (m !! k) as [v|] eqn:Hk; cbn; [|lia].
  assert (size m ≠ 0%nat); [|lia].
  apply map_size_non_empty_iff. intros ->. by rewrite lookup_empty in Hk.
Qed.

(** X18: the status after a heartbeat, against the status before.  The
    heartbeat of a device not yet in the registry adds one to
    [total_devices], that of a known device leaves it; [online_devices]
    loses the device if it was counted and gains it if the new status is
    "online"; [total_images] does not move. *)
Theorem heartbeat_then_status d st t now s :
  let reg := st_device_status s in
  let was_online :=
    match reg !! d with
    | Some info => if decide (status info = "online") then 1 else 0
    | None => 0
    end in
  ∃ before after s',
    get_system_status now s = (Returned before, s)
    ∧ (heartbeat d st t ;; get_system_status now) s = (Returned after, s')
    ∧ total_devices after
      = total_devices before
        + (match reg !! d with Some _ => 0 | None => 1 end)
    ∧ online_devices after
      = online_devices before - was_online
        + (if decide (st = "online") then 1 else 0)
    ∧ total_images after = total_images before.
Proof.
  intros reg was_online. eexists _, _, _. split; [reflexivity|].
  rewrite run_bind, heartbeat_run. split; [reflexivity|].
  cbn [total_devices online_devices total_images set_device_status
       st_device_status st_image_metadata]. fold reg.
  split; [|split; [|done]].
  - rewrite map_size_insert. destruct (reg !! d); cbn; lia.
  - rewrite !count_online_size.
    assert (Hdel : Z.of_nat (size (delete d (filter is_online reg)))
                   = Z.of_nat (size (filter is_online reg)) - was_online).
    { rewrite size_delete_Z, map_lookup_filter. unfold was_online, is_online.
      destruct (reg !! d) as [info|]; cbn; [|done].
      destruct (decide (status info = "online")).
      - by rewrite option_guard_True.
      - by rewrite option_guard_False. }
    rewrite map_filter_insert. unfold is_online at 1. cbn [snd status].
    destruct (decide (st = "online")) as [Hon|Hoff].
    + rewrite <-insert_delete_eq, map_size_insert_None by apply lookup_delete_eq.
      lia.
    + rewrite map_filter_delete. lia.
Qed.

(** ** Uploads: two uploads in one second *)

Lemma upload_image_below_cap image d ts now s :
  d ≠ "" →
  (length (images_of d (st_image_metadata s)) < 20)%nat →
  upload_image image (Some d) ts now s
  = (Returned (mkUploadResponse "Image uploaded successfully"
                                (image_filename d ts)),
     stored image d ts now s).
Proof.
  intros Hd Hlen. rewrite upload_image_run by done. cbv zeta.
  unfold to_evict. rewrite decide_False; [done|].
  rewrite images_of_stored, length_app. cbn [length]. lia.
Qed.

(** X19: two uploads of one device that get the same file-name timestamp
    (the clock has a resolution of one second); the identifier is a plain
    file-name component, the upload directory holds plain files only and
    the timestamp is a formatted clock reading.  Below the cap both succeed
    with the same file name; the second image replaces the first on disk,
    and the ledger gets two records for the one file. *)
Theorem upload_image_same_second image1 image2 d ts now1 now2 s :
  plain_id d = true →
  plain_directory s →
  is_timestamp ts = true →
  (length (images_of d (st_image_metadata s)) + 2 ≤ 20)%nat →
  ∃ r2,
    (upload_image image1 (Some d) ts now1 ;; upload_image image2 (Some d) ts now2) s
    = (Returned r2,
       mkState (st_device_status s)
               (st_image_metadata s
                ++ [new_record d ts now1; new_record d ts now2])
               (<[blob_path d ts := image2]> (st_files s)))
    ∧ up_filename r2 = image_filename d ts.
Proof.
  intros Hd%plain_id_nonempty _ _ Hlen. rewrite run_bind.
  rewrite upload_image_below_cap by (done || lia).
  rewrite upload_image_below_cap; [|done|].
  - eexists. split.
    + unfold stored. cbn [st_device_status st_image_metadata st_files].
      rewrite insert_insert_eq, <-app_assoc. reflexivity.
    + reflexivity.
  - rewrite images_of_stored, length_app. cbn [length]. lia.
Qed.

Lemma upload_image_same_second_witness :
  ∃ r2,
    (upload_image [] (Some "pi") "20240101_120000" 100000 ;;
     upload_image [] (Some "pi") "20240101_120000" 600000) initial
    = (Returned r2,
       mkState ∅
         [new_record "pi" "20240101_120000" 100000;
          new_record "pi" "20240101_120000" 600000]
         (<["uploads/pi-20240101_120000.png" := []]> ∅))
    ∧ up_filename r2 = "pi-20240101_120000.png".
Proof.
  apply (upload_image_same_second [] [] "pi" "20240101_120000" 100000 600000
           initial).
  - reflexivity.
  - apply plain_directory_initial.
  - reflexivity.
  - cbn. lia.
Defined.

(** ** Plain states are kept *)

Lemma all_digits_no_char c s :
  is_digit c = false → all_digits s = true → contains_char c s = false.
Proof.
  intros Hc. induction s as [|a s IH]; [done|]. cbn [all_digits contains_char].
  intros [Ha Hs]%andb_true_iff. rewrite IH by done.
  destruct (decide (a = c)) as [->|]; [congruence|done].
Qed.

(** A formatted clock reading holds digits and one underscore only. *)
Lemma is_timestamp_no_char c ts :
  is_digit c = false → c ≠ "_"%char →
  is_timestamp ts = true → contains_char c ts = false.
Proof.
  intros Hc Hne. unfold is_timestamp. rewrite !andb_true_iff.
  intros [[[Hlen Hdate] Hsep] Htime]. apply bool_decide_eq_true in Hlen, Hsep.
  rewrite (substring_split 8 ts) by lia. rewrite contains_char_app.
  rewrite (all_digits_no_char c _ Hc Hdate), orb_false_l, Hlen.
  assert (Hrest : String.substring 8 (15 - 8) ts
                  = String "_" (String.substring 9 6 ts)).
  { clear -Hlen Hsep.
    do 8 (destruct ts as [|? ts]; [done|]).
    destruct ts as [|c ts]; [done|]. cbn in Hsep. injection Hsep as ->.
    reflexivity. }
  rewrite Hrest. cbn [contains_char]. rewrite decide_False by done.
  by apply all_digits_no_char.
Qed.

(** The file name generated for a plain identifier is a plain name. *)
Lemma image_filename_plain d ts :
  plain_id d = true → is_timestamp ts = true →
  plain_name (image_filename d ts) = true.
Proof.
  unfold plain_id, plain_name, image_filename.
  rewrite !andb_true_iff, !negb_true_iff.
  intros [[Hsep Hnul] Hlen%bool_decide_eq_true] Hts.
  assert (Hl : String.length (d +:+ "-" +:+ ts +:+ ".png")
               = (String.length d + 20)%nat).
  { rewrite !string_app_length, (is_timestamp_length ts Hts). cbn. lia. }
  repeat split.
  - rewrite !contains_char_app, Hsep, (is_timestamp_no_char "/" ts); done.
  - rewrite !contains_char_app, Hnul, (is_timestamp_no_char "000" ts); done.
  - apply bool_decide_eq_true. lia.
  - apply bool_decide_eq_false. intros Heq. rewrite Heq in Hl. cbn in Hl. lia.
  - apply bool_decide_eq_false. intros Heq. rewrite Heq in Hl. cbn in Hl. lia.
Qed.

Lemma blob_path_plain d ts :
  plain_id d = true → is_timestamp ts = true →
  plain_path (blob_path d ts) = true.
Proof.
  intros Hd Hts. pose proof (image_filename_plain d ts Hd Hts) as Hname.
  assert (Hsep : no_separator (image_filename d ts)).
  { unfold plain_name in Hname. rewrite !andb_true_iff, !negb_true_iff in Hname.
    unfold no_separator. tauto. }
  unfold plain_path, blob_path. rewrite os_path_join_upload.
  - by rewrite (proj2 (dir_entry_Some _ _) (conj eq_refl Hsep)).
  - destruct (startswith (image_filename d ts) "/") eqn:Habs; [|done].
    apply startswith_separator_inv in Habs as [rest Hrest].
    unfold no_separator in Hsep. rewrite Hrest in Hsep. done.
Qed.

(** Cap enforcement creates no file. *)
Lemma evict_loop_files l : ∀ s,
  st_files (for_each l evict s).2 ⊆ st_files s.
Proof.
  induction l as [|x l IH]; intros s; [done|].
  cbn [for_each]. rewrite run_bind.
  assert (Hx : st_files (evict x s).2 ⊆ st_files s).
  { rewrite evict_run. destruct (st_files s !! file_path x); [|done].
    destruct (list_remove x (st_image_metadata s)); apply delete_subseteq. }
  destruct (evict x s) as [[[]|e] s1]; [|exact Hx].
  etrans; [apply IH|exact Hx].
Qed.

(** An upload of a plain identifier keeps a plain state. *)
Lemma upload_image_plain_state image d ts now s :
  plain_id d = true → is_timestamp ts = true →
  plain_state s → plain_state (upload_image image (Some d) ts now s).2.
Proof.
  intros Hd Hts [Hdir Hled].
  rewrite upload_image_run by by apply plain_id_nonempty. cbv zeta.
  set (s1 := stored image d ts now s).
  assert (Hdir1 : plain_directory s1).
  { apply map_Forall_insert_2; [by apply blob_path_plain|exact Hdir]. }
  assert (Hled1 : Forall plain_record (st_image_metadata s1)).
  { apply Forall_app. split; [exact Hled|]. apply Forall_singleton.
    split; [exact Hd|by apply new_record_generated]. }
  pose proof (evict_loop_files (to_evict d (st_image_metadata s1)) s1) as Hfiles.
  destruct (evict_loop_frame (to_evict d (st_image_metadata s1)) s1)
    as (_ & _ & _ & Hin).
  cbv zeta in Hin.
  assert (Hplain : plain_state
            (for_each (to_evict d (st_image_metadata s1)) evict s1).2).
  { split.
    - intros p v Hp. apply (Hdir1 p v). by eapply lookup_weaken.
    - apply Forall_forall. intros x Hx%Hin.
      by apply (proj1 (Forall_forall _ _) Hled1). }
  by destruct (for_each (to_evict d (st_image_metadata s1)) evict s1)
    as [[[]|e] s'].
Qed.

(** A reconciliation keeps a plain state. *)
Lemma cleanup_orphaned_plain_state d s :
  plain_state s → plain_state (cleanup_orphaned d s).2.
Proof.
  intros [Hdir Hled]. split.
  - intros p v Hp.
    destruct (cleanup_orphaned_scope d s p) as (_ & _ & [Hsame|[Hnone _]]);
      cbv zeta in *.
    + apply (Hdir p v). by rewrite <-Hsame.
    + congruence.
  - destruct (cleanup_orphaned_scope d s "") as (_ & Hmd & _). cbv zeta in Hmd.
    by rewrite Hmd.
Qed.
